(** * Tailspin Toys games API: validation, query composition and handlers

    A shallow embedding of [server/models/base.py], [server/models/category.py]
    and [server/routes/games.py].

    Python values are an inductive type, [str] is a list of Unicode code
    points, dictionaries are finite maps, and the handlers are written in a
    small monad that threads the persistence session and distinguishes a
    normal value, an early [return] and a raised exception. *)

From Stdlib Require Import ZArith NArith String Ascii List Floats.
From stdpp Require Import gmap strings list fin_maps pretty.

Set Warnings "-register-all".
Local Open Scope Z_scope.

(* ===================================================================== *)
(** * Python values *)
(* ===================================================================== *)

(** A Python [str]: a sequence of code points; [len] counts code points. *)
Definition pystr := list N.

(** The objects [request.get_json()] can produce, which are also the
    objects the validators and the handlers receive. *)
Inductive pyval : Type :=
| PyNone
| PyBool (b : bool)
| PyInt (n : Z)
| PyFloat (x : float)
| PyStr (s : pystr)
| PyList (l : list pyval)
| PyDict (d : gmap pystr pyval).

(** A string literal of the source. *)
Definition lit (s : string) : pystr :=
  List.map N_of_ascii (list_ascii_of_string s).

Definition pylen (s : pystr) : Z := Z.of_nat (length s).

(** [str.isspace] on one code point: the white space table of CPython. *)
Definition isspace (c : N) : bool :=
  (((9 <=? c) && (c <=? 13)) || ((28 <=? c) && (c <=? 32))
   || (c =? 133) || (c =? 160) || (c =? 5760)
   || ((8192 <=? c) && (c <=? 8202))
   || (c =? 8232) || (c =? 8233) || (c =? 8239) || (c =? 8287)
   || (c =? 12288))%N.

Fixpoint lstrip (s : pystr) : pystr :=
  match s with
  | [] => []
  | c :: r => if isspace c then lstrip r else s
  end.

Definition rstrip (s : pystr) : pystr := rev (lstrip (rev s)).

(** [value.strip()] *)
Definition strip (s : pystr) : pystr := rstrip (lstrip s).

(** [str(n)] / [f"{n}"] for an [int]. *)
Definition str_of_int (n : Z) : pystr := lit (pretty n).

Definition pystr_eqb (a b : pystr) : bool := bool_decide (a = b).

Fixpoint is_prefix (p s : pystr) : bool :=
  match p, s with
  | [], _ => true
  | _ :: _, [] => false
  | a :: p', b :: s' => (a =? b)%N && is_prefix p' s'
  end.

(** [p in s] for two strings *)
Fixpoint is_substr (p s : pystr) : bool :=
  is_prefix p s ||
  match s with
  | [] => false
  | _ :: s' => is_substr p s'
  end.

Definition is_none (v : pyval) : bool :=
  match v with PyNone => true | _ => false end.

(** Exceptions, as far as the [except] clauses tell them apart. *)
Inductive exn : Type :=
| ValueError (msg : pystr)
| TypeError
| KeyError
| AttributeError
| OverflowError
| StorageError.

(** A computation that returns or raises, without touching the session. *)
Inductive res (A : Type) : Type :=
| Ok (a : A)
| Raise (e : exn).
Arguments Ok {A} a.
Arguments Raise {A} e.

Definition res_bind {A B} (m : res A) (k : A -> res B) : res B :=
  match m with
  | Ok a => k a
  | Raise e => Raise e
  end.

(** [key in data] *)
Definition py_contains (data : pyval) (key : pystr) : res bool :=
  match data with
  | PyDict d => Ok (match d !! key with Some _ => true | None => false end)
  | PyList l =>
      Ok (existsb (fun x => match x with
                            | PyStr s => pystr_eqb s key
                            | _ => false
                            end) l)
  | PyStr s => Ok (is_substr key s)
  | _ => Raise TypeError
  end.

(** [data[key]] for a string key *)
Definition py_getitem (data : pyval) (key : pystr) : res pyval :=
  match data with
  | PyDict d =>
      match d !! key with
      | Some v => Ok v
      | None => Raise KeyError
      end
  | _ => Raise TypeError
  end.

(** [data.get(key)] *)
Definition py_get (data : pyval) (key : pystr) : res pyval :=
  match data with
  | PyDict d => Ok (default PyNone (d !! key))
  | _ => Raise AttributeError
  end.

(** [data is None or (isinstance(data, dict) and len(data) == 0)] *)
Definition no_data (data : pyval) : bool :=
  is_none data ||
  match data with
  | PyDict d => Nat.eqb (size d) 0
  | _ => false
  end.

(* ===================================================================== *)
(** * models/base.py *)
(* ===================================================================== *)

(** [BaseModel.validate_string_length(field_name, value, min_length,
    allow_none)] *)
Definition validate_string_length
    (field_name : pystr) (value : pyval) (min_length : Z) (allow_none : bool)
  : res pyval :=
  if is_none value then
    if allow_none then Ok value
    else Raise (ValueError (field_name ++ lit " cannot be empty"))
  else
    match value with
    | PyStr s =>
        if pylen (strip s) <? min_length
        then Raise (ValueError (field_name ++ lit " must be at least "
                                  ++ str_of_int min_length
                                  ++ lit " characters"))
        else Ok value
    | _ => Raise (ValueError (field_name ++ lit " must be a string"))
    end.

(** The defaults of the signature: [min_length=2, allow_none=False]. *)
Definition default_min_length : Z := 2.
Definition default_allow_none : bool := false.

(* ===================================================================== *)
(** * Entities *)
(* ===================================================================== *)

(** The columns of a [Game] besides its primary key, which is the key of
    the table. The attributes hold whatever object was assigned. *)
Record Game : Type := mkGame {
  game_title : pyval;
  game_description : pyval;
  game_star_rating : pyval;
  game_publisher_id : pyval;
  game_category_id : pyval
}.

Inductive game_attr : Type :=
| GTitle | GDescription | GStarRating | GPublisherId | GCategoryId.

(** [setattr(game, attr, v)] once [v] went through the attribute's hook *)
Definition Game_store (g : Game) (a : game_attr) (v : pyval) : Game :=
  match a with
  | GTitle => mkGame v (game_description g) (game_star_rating g)
                (game_publisher_id g) (game_category_id g)
  | GDescription => mkGame (game_title g) v (game_star_rating g)
                      (game_publisher_id g) (game_category_id g)
  | GStarRating => mkGame (game_title g) (game_description g) v
                     (game_publisher_id g) (game_category_id g)
  | GPublisherId => mkGame (game_title g) (game_description g)
                      (game_star_rating g) v (game_category_id g)
  | GCategoryId => mkGame (game_title g) (game_description g)
                     (game_star_rating g) (game_publisher_id g) v
  end.

(* ===================================================================== *)
(** * models/category.py *)
(* ===================================================================== *)

(** A [Category] object. [cat_games] is the related collection as the
    attribute holds it: [None] when the attribute is absent. *)
Record Category : Type := mkCategory {
  cat_id : pyval;
  cat_name : pyval;
  cat_description : pyval;
  cat_games : option (list Game)
}.

Inductive cat_attr : Type := CId | CName | CDescription.

(** [@validates('name') validate_name(self, key, name)] *)
Definition validate_name (self : Category) (key : pystr) (name : pyval)
  : res pyval :=
  validate_string_length (lit "Category name") name 2 default_allow_none.

(** [@validates('description') validate_description(self, key, description)] *)
Definition validate_description
    (self : Category) (key : pystr) (description : pyval) : res pyval :=
  validate_string_length (lit "Description") description 10 true.

Definition with_id (self : Category) (v : pyval) : Category :=
  mkCategory v (cat_name self) (cat_description self) (cat_games self).

Definition with_name (self : Category) (v : pyval) : Category :=
  mkCategory (cat_id self) v (cat_description self) (cat_games self).

Definition with_description (self : Category) (v : pyval) : Category :=
  mkCategory (cat_id self) (cat_name self) v (cat_games self).

(** An assignment [category.attr = v]: the [@validates] hook of the
    attribute runs first and what it returns is stored; when it raises, the
    object is not changed. *)
Definition Category_setattr (self : Category) (a : cat_attr) (v : pyval)
  : res Category :=
  match a with
  | CId => Ok (with_id self v)
  | CName =>
      res_bind (validate_name self (lit "name") v)
        (fun v' => Ok (with_name self v'))
  | CDescription =>
      res_bind (validate_description self (lit "description") v)
        (fun v' => Ok (with_description self v'))
  end.

(** An object no attribute of which was assigned: the columns read [None]
    and the collection is empty. *)
Definition Category_blank : Category :=
  mkCategory PyNone PyNone PyNone (Some []).

(** [Category(name=..., description=...)]: the declarative constructor assigns the keyword
    arguments one after the other, in the order of the call. *)
Fixpoint Category_init_from
    (self : Category) (kwargs : list (cat_attr * pyval)) : res Category :=
  match kwargs with
  | [] => Ok self
  | (a, v) :: rest =>
      res_bind (Category_setattr self a v) (fun self' =>
      Category_init_from self' rest)
  end.

Definition Category_init (kwargs : list (cat_attr * pyval)) : res Category :=
  Category_init_from Category_blank kwargs.

(** [len(self.games) if self.games else 0] *)
Definition game_count (self : Category) : Z :=
  match cat_games self with
  | Some (g :: gs) => Z.of_nat (length (g :: gs))
  | _ => 0
  end.

(** [Category.to_dict(self)] *)
Definition Category_to_dict (self : Category) : gmap pystr pyval :=
  list_to_map
    [ (lit "id", cat_id self);
      (lit "name", cat_name self);
      (lit "description", cat_description self);
      (lit "game_count", PyInt (game_count self)) ].

(* ===================================================================== *)
(** * What games.py imports from models *)
(* ===================================================================== *)

(** How the database reads the argument of [Model.query.get]: a row
    number, no row at all, or an error of the driver. *)
Inductive pk : Type :=
| PkRow (k : Z)
| PkNoRow
| PkError.

(** The keys an INTEGER column and the driver in front of it can hold:
    signed integers of 64 bits. A Python [int] outside this range cannot be
    bound to a statement: the driver raises. *)
Definition int64 (k : Z) : bool := (- 2 ^ 63 <=? k) && (k <? 2 ^ 63).

(** [routes/games.py] imports [db], [Game] and [Publisher] from [models],
    and runs inside the web framework. What the handlers use of them is a
    parameter of every definition below:
    - [Publisher], the rows of the publishers table;
    - [pk_coerce], how the database reads a primary key that is not an
      [int];
    - [Game_validates], the [@validates] hooks of [Game], run on every
      assignment to an attribute;
    - [Game_storable], the constraints of the games table, checked when a
      new or modified row is written;
    - [next_game_id], the primary key the database gives a new row;
    - [Game_to_dict], the serialization of a game together with the
      publisher and the category it refers to;
    - [unhandled_body], the body of the answer 500 the framework gives
      when a handler without [try] lets an exception out. *)
Class Models : Type := {
  Publisher : Type;
  pk_coerce : pyval -> pk;
  Game_validates : game_attr -> pyval -> res pyval;
  Game_storable : Game -> bool;
  next_game_id : gmap Z Game -> Z;
  Game_to_dict : Z -> Game -> option Publisher -> option Category -> pyval;
  unhandled_body : pyval
}.

Inductive table : Type := TGame | TPublisher | TCategory.

(** What a handler asks of the session, in the order it asks. *)
Inductive event : Type :=
| EvGet (t : table) (key : pyval)
| EvSelect
| EvAdd (k : Z)
| EvDelete (k : Z)
| EvCommit
| EvRollback.

Record Response : Type := mkResponse {
  body : pyval;
  status : Z
}.

(** [request.get_json()] raises, or returns the parsed body. *)
Inductive request_body : Type :=
| NotJson
| Json (data : pyval).

(** [jsonify({"error": msg}), code] *)
Definition jsonify_error (msg : pystr) (code : Z) : Response :=
  mkResponse (PyDict {[ lit "error" := PyStr msg ]}) code.

(** [jsonify({"message": msg}), code] *)
Definition jsonify_message (msg : pystr) (code : Z) : Response :=
  mkResponse (PyDict {[ lit "message" := PyStr msg ]}) code.

(** [LEFT OUTER JOIN]: every row of the left table with each matching row
    of the right table, or with no row when none matches. *)
Definition outer_join {A B : Type}
    (on : A -> B -> bool) (left : list A) (right : list B)
  : list (A * option B) :=
  flat_map (fun a =>
              match List.filter (on a) right with
              | [] => [(a, None)]
              | b :: bs => List.map (fun b' => (a, Some b')) (b :: bs)
              end) left.

Section Handlers.
Context {MD : Models}.

(** The three tables as committed. *)
Record Store : Type := mkStore {
  publishers : gmap Z Publisher;
  categories : gmap Z Category;
  games : gmap Z Game
}.

(** The session: the committed tables, the games as the open transaction
    sees them, the rows added or assigned to since the last commit or
    rollback, and the log of what was asked. *)
Record Session : Type := mkSession {
  stored : Store;
  view : gmap Z Game;
  dirty : list Z;
  trace : list event
}.

Definition open_session (db : Store) : Session :=
  mkSession db (games db) [] [].

Definition log (e : event) (s : Session) : Session :=
  mkSession (stored s) (view s) (dirty s) (trace s ++ [e]).

(** The row number a key designates: an [int] designates itself; whether
    the driver can bind it to a statement is decided where it is looked
    up, in [find_row] and [first_by_id]. *)
Definition pk_of (key : pyval) : pk :=
  match key with
  | PyInt k => PkRow k
  | _ => pk_coerce key
  end.

Definition pk_matches (key : pyval) (k : Z) : bool :=
  match pk_of key with
  | PkRow k' => k' =? k
  | _ => false
  end.

(** Statements: a value and the next statement, a [return], or a raised
    exception; each with the session as it then is. *)
Inductive outcome (A : Type) : Type :=
| Val (a : A) (s : Session)
| Ret (r : Response) (s : Session)
| Exc (e : exn) (s : Session).
Arguments Val {A} a s.
Arguments Ret {A} r s.
Arguments Exc {A} e s.

Definition M (A : Type) : Type := Session -> outcome A.

Definition ret {A} (a : A) : M A := fun s => Val a s.

Definition bind {A B} (m : M A) (k : A -> M B) : M B :=
  fun s =>
    match m s with
    | Val a s' => k a s'
    | Ret r s' => Ret r s'
    | Exc e s' => Exc e s'
    end.

Definition return_ {A} (r : Response) : M A := fun s => Ret r s.

Definition raise {A} (e : exn) : M A := fun s => Exc e s.

Definition lift {A} (r : res A) : M A :=
  fun s =>
    match r with
    | Ok a => Val a s
    | Raise e => Exc e s
    end.

Declare Scope py_scope.
Delimit Scope py_scope with py.
Notation "x <- m ;; k" := (bind m (fun x => k))
  (at level 100, m at next level, right associativity) : py_scope.
Notation "m ;;; k" := (bind m (fun _ => k))
  (at level 100, right associativity) : py_scope.
Local Open Scope py_scope.

(** Every [return] the statement can execute satisfies [P]. *)
Definition returns {A : Type}
    (P : Response -> Session -> Prop) (m : M A) (s : Session) : Prop :=
  match m s with
  | Ret r s' => P r s'
  | _ => True
  end.

(** Every response the body of a handler can produce satisfies [P]. *)
Definition answers
    (P : Response -> Session -> Prop) (m : M Response) (s : Session) : Prop :=
  match m s with
  | Val r s' => P r s'
  | Ret r s' => P r s'
  | Exc _ _ => True
  end.

(** The early returns of the handlers are answered 400 or 404. *)
Definition refusal (r : Response) (s : Session) : Prop :=
  status r = 400 \/ status r = 404.

(** [not obj] for a model object or [None] *)
Definition is_absent {A : Type} (obj : option A) : bool :=
  match obj with
  | None => true
  | Some _ => false
  end.

(** [if cond: return r] *)
Definition return_if (cond : bool) (r : Response) : M unit :=
  if cond then return_ r else ret tt.

(** What a lookup by primary key finds in a table. A table holds only
    keys of 64 bits, so a key that finds a row is one the driver could
    bind; a key that finds none and is outside that range is the one the
    driver raises on. *)
Definition find_row {A : Type} (rows : gmap Z A) (key : pyval)
  : res (option A) :=
  match pk_of key with
  | PkRow k =>
      match rows !! k with
      | Some row => Ok (Some row)
      | None => if int64 k then Ok None else Raise OverflowError
      end
  | PkNoRow => Ok None
  | PkError => Raise StorageError
  end.

(** [Model.query.get(key)] on a table as the session sees it. The session
    of a request starts with nothing pending; where the handler assigned to
    an object of the session before the lookup, the flush of the session
    comes first: see [autoflush] and [update_reference]. *)
Definition query_get {A : Type}
    (t : table) (rows : Session -> gmap Z A) (key : pyval) : M (option A) :=
  fun s => lift (find_row (rows s) key) (log (EvGet t key) s).

(** [game.attr = v] on the game of primary key [k], an object of the
    session: the hook runs, the attribute is set, the row is marked. *)
Definition game_setattr (k : Z) (a : game_attr) (v : pyval) : M unit :=
  fun s =>
    match Game_validates a v with
    | Raise e => Exc e s
    | Ok v' =>
        Val tt (mkSession (stored s)
                  (alter (fun g => Game_store g a v') k (view s))
                  (k :: dirty s) (trace s))
    end.

(** [Game(title=..., description=..., publisher_id=..., category_id=...,
    star_rating=...)]: the keyword arguments are assigned in this order. *)
Definition Game_init
    (title description publisher_id category_id star_rating : pyval)
  : res Game :=
  res_bind (Game_validates GTitle title) (fun t =>
  res_bind (Game_validates GDescription description) (fun d =>
  res_bind (Game_validates GPublisherId publisher_id) (fun p =>
  res_bind (Game_validates GCategoryId category_id) (fun c =>
  res_bind (Game_validates GStarRating star_rating) (fun r =>
  Ok (mkGame t d r p c)))))).

(** [db.session.add(new_game)]; the result is [new_game.id]. *)
Definition session_add (g : Game) : M Z :=
  fun s =>
    let k := next_game_id (view s) in
    Val k (mkSession (stored s) (<[k := g]> (view s)) (k :: dirty s)
             (trace s ++ [EvAdd k])).

(** [db.session.delete(game)] *)
Definition session_delete (k : Z) : M unit :=
  fun s =>
    Val tt (mkSession (stored s) (delete k (view s)) (dirty s)
              (trace s ++ [EvDelete k])).

Definition writable (s : Session) (k : Z) : bool :=
  match view s !! k with
  | Some g => Game_storable g
  | None => true
  end.

(** The flush that precedes a SELECT when assignments are pending: the
    marked rows are written inside the open transaction, which the table
    may refuse. *)
Definition autoflush : M unit :=
  fun s =>
    if forallb (writable s) (dirty s) then Val tt s else Exc StorageError s.

(** [db.session.commit()]: the marked rows are written, which the table
    may refuse; then the transaction's view becomes the committed table. *)
Definition session_commit : M unit :=
  fun s =>
    let s' := log EvCommit s in
    if forallb (writable s) (dirty s)
    then Val tt (mkSession
                   (mkStore (publishers (stored s)) (categories (stored s))
                      (view s))
                   (view s) [] (trace s'))
    else Exc StorageError s'.

(** [db.session.rollback()] *)
Definition session_rollback (s : Session) : Session :=
  mkSession (stored s) (games (stored s)) [] (trace s ++ [EvRollback]).

(* ===================================================================== *)
(** * routes/games.py *)
(* ===================================================================== *)

(** A row of the composed query: the game, and the publisher and the
    category joined to it, each with its primary key. *)
Definition joined_row : Type :=
  ((Z * Game) * option (Z * Publisher)) * option (Z * Category).

Definition row_id (r : joined_row) : Z := fst (fst (fst r)).
Definition row_game (r : joined_row) : Game := snd (fst (fst r)).

(** A query is run against the session when its rows are asked for. *)
Definition Query : Type := Session -> list joined_row.

(** [get_games_base_query()]:
    [query(Game).join(Publisher, Game.publisher_id == Publisher.id,
    isouter=True).join(Category, Game.category_id == Category.id,
    isouter=True)] *)
Definition get_games_base_query : Query :=
  fun s =>
    outer_join
      (fun gp c => pk_matches (game_category_id (snd (fst gp))) (fst c))
      (outer_join
         (fun g p => pk_matches (game_publisher_id (snd g)) (fst p))
         (map_to_list (view s))
         (map_to_list (publishers (stored s))))
      (map_to_list (categories (stored s))).

(** The row of a table a foreign key refers to, if there is one. *)
Definition related {A : Type} (rows : gmap Z A) (key : pyval)
  : option (Z * A) :=
  match pk_of key with
  | PkRow k => (fun v => (k, v)) <$> rows !! k
  | _ => None
  end.

(** A game with the publisher and the category it refers to. *)
Definition hydrate (s : Session) (g : Z * Game) : joined_row :=
  ((g, related (publishers (stored s)) (game_publisher_id (snd g))),
   related (categories (stored s)) (game_category_id (snd g))).

(** [.filter(Game.id == id)] *)
Definition filter_by_id (id : Z) (q : Query) : Query :=
  fun s => List.filter (fun r => row_id r =? id) (q s).

(** [.all()] *)
Definition query_all (q : Query) : M (list joined_row) :=
  fun s => Val (q s) (log EvSelect s).

(** [get_games_base_query().filter(Game.id == id).first()]: the first
    row with this key, or [None]; as for [find_row], the driver raises on
    a key outside 64 bits, which no row has. *)
Definition first_by_id (id : Z) : M (option joined_row) :=
  fun s =>
    match head (filter_by_id id get_games_base_query s) with
    | Some row => Val (Some row) (log EvSelect s)
    | None =>
        if int64 id then Val None (log EvSelect s)
        else Exc OverflowError (log EvSelect s)
    end.

(** [game.to_dict()] on a row of the query *)
Definition to_dict (r : joined_row) : pyval :=
  Game_to_dict (row_id r) (row_game r)
    (snd <$> snd (fst r)) (snd <$> snd r).

(** The response was built from the row of the composed query with this
    primary key, and running that query was the last the session was
    asked. *)
Definition fetched (id code : Z) (r : Response) (s : Session) : Prop :=
  exists row,
    head (filter_by_id id get_games_base_query s) = Some row /\
    r = mkResponse (to_dict row) code /\
    last (trace s) = Some EvSelect.

(** A handler without [try]: an exception leaves it, and the framework
    answers 500 with a body of its own. *)
Definition run_plain (m : M Response) (s : Session) : Response * Session :=
  match m s with
  | Val r s' => (r, s')
  | Ret r s' => (r, s')
  | Exc _ s' => (mkResponse unhandled_body 500, s')
  end.

(** [try: ... except ValueError as e: rollback; 400 str(e)
    except Exception: rollback; 500] *)
Definition try_except_ValueError_Exception
    (m : M Response) (s : Session) : Response * Session :=
  match m s with
  | Val r s' => (r, s')
  | Ret r s' => (r, s')
  | Exc (ValueError msg) s' => (jsonify_error msg 400, session_rollback s')
  | Exc _ s' =>
      (jsonify_error (lit "Internal server error") 500, session_rollback s')
  end.

(** [try: ... except Exception: rollback; 500] *)
Definition try_except_Exception
    (m : M Response) (s : Session) : Response * Session :=
  match m s with
  | Val r s' => (r, s')
  | Ret r s' => (r, s')
  | Exc _ s' =>
      (jsonify_error (lit "Internal server error") 500, session_rollback s')
  end.

(** [try: data = request.get_json() except Exception: return 400] *)
Definition try_get_json (req : request_body) : M pyval :=
  match req with
  | NotJson => return_ (jsonify_error (lit "No data provided") 400)
  | Json data => ret data
  end.

(** [GET /api/games] *)
Definition get_games : Session -> Response * Session :=
  run_plain (
    games_query <- query_all get_games_base_query ;;
    let games_list := List.map to_dict games_query in
    return_ (mkResponse (PyList games_list) 200)).

(** [GET /api/games/<int:id>] *)
Definition get_game (id : Z) : Session -> Response * Session :=
  run_plain (
    game_query <- first_by_id id ;;
    match game_query with
    | None => return_ (jsonify_error (lit "Game not found") 404)
    | Some row => return_ (mkResponse (to_dict row) 200)
    end).

Definition required_fields : list pystr :=
  [lit "title"; lit "description"; lit "publisher_id"; lit "category_id"].

(** A field of a dictionary that is missing or null. *)
Definition missing (d : gmap pystr pyval) (field : pystr) : bool :=
  match d !! field with
  | Some v => is_none v
  | None => true
  end.

(** [for field in fields: if field not in data or data[field] is None:
    return 400] *)
Fixpoint check_required (data : pyval) (fields : list pystr) : M unit :=
  match fields with
  | [] => ret tt
  | field :: rest =>
      present <- lift (py_contains data field) ;;
      missing <- (if negb present then ret true
                  else v <- lift (py_getitem data field) ;; ret (is_none v)) ;;
      return_if missing
        (jsonify_error (lit "Missing required field: " ++ field) 400) ;;;
      check_required data rest
  end.

(** [POST /api/games] *)
Definition create_game (req : request_body) : Session -> Response * Session :=
  try_except_ValueError_Exception (
    data <- try_get_json req ;;
    return_if (no_data data) (jsonify_error (lit "No data provided") 400) ;;;
    check_required data required_fields ;;;
    publisher_key <- lift (py_getitem data (lit "publisher_id")) ;;
    publisher <- query_get TPublisher (fun s => publishers (stored s))
                   publisher_key ;;
    return_if (is_absent publisher)
      (jsonify_error (lit "Publisher not found") 404) ;;;
    category_key <- lift (py_getitem data (lit "category_id")) ;;
    category <- query_get TCategory (fun s => categories (stored s))
                  category_key ;;
    return_if (is_absent category)
      (jsonify_error (lit "Category not found") 404) ;;;
    title <- lift (py_getitem data (lit "title")) ;;
    description <- lift (py_getitem data (lit "description")) ;;
    publisher_id <- lift (py_getitem data (lit "publisher_id")) ;;
    category_id <- lift (py_getitem data (lit "category_id")) ;;
    star_rating <- lift (py_get data (lit "star_rating")) ;;
    new_game <- lift (Game_init title description publisher_id category_id
                        star_rating) ;;
    new_id <- session_add new_game ;;
    session_commit ;;;
    created_game <- first_by_id new_id ;;
    match created_game with
    | None => raise AttributeError
    | Some row => return_ (mkResponse (to_dict row) 201)
    end).

(** [if attr in data: game.attr = data[attr]] *)
Definition update_field (id : Z) (data : pyval) (key : pystr) (a : game_attr)
  : M unit :=
  present <- lift (py_contains data key) ;;
  if present
  then v <- lift (py_getitem data key) ;; game_setattr id a v
  else ret tt.

(** [if key in data: row = Model.query.get(data[key]); if not row: return
    404; game.attr = data[key]]; the lookup flushes what was assigned to
    the game before it. *)
Definition update_reference {A : Type}
    (id : Z) (data : pyval) (key : pystr) (a : game_attr)
    (t : table) (rows : Session -> gmap Z A) (not_found : pystr) : M unit :=
  present <- lift (py_contains data key) ;;
  if present
  then
    k <- lift (py_getitem data key) ;;
    autoflush ;;;
    row <- query_get t rows k ;;
    match row with
    | None => return_ (jsonify_error not_found 404)
    | Some _ => v <- lift (py_getitem data key) ;; game_setattr id a v
    end
  else ret tt.

(** [PUT /api/games/<int:id>] *)
Definition update_game (id : Z) (req : request_body)
  : Session -> Response * Session :=
  try_except_ValueError_Exception (
    game <- query_get TGame view (PyInt id) ;;
    return_if (is_absent game)
      (jsonify_error (lit "Game not found") 404) ;;;
    data <- try_get_json req ;;
    return_if (no_data data) (jsonify_error (lit "No data provided") 400) ;;;
    update_field id data (lit "title") GTitle ;;;
    update_field id data (lit "description") GDescription ;;;
    update_field id data (lit "star_rating") GStarRating ;;;
    update_reference id data (lit "publisher_id") GPublisherId
      TPublisher (fun s => publishers (stored s))
      (lit "Publisher not found") ;;;
    update_reference id data (lit "category_id") GCategoryId
      TCategory (fun s => categories (stored s))
      (lit "Category not found") ;;;
    session_commit ;;;
    updated_game <- first_by_id id ;;
    match updated_game with
    | None => raise AttributeError
    | Some row => return_ (mkResponse (to_dict row) 200)
    end).

(** [DELETE /api/games/<int:id>] *)
Definition delete_game (id : Z) : Session -> Response * Session :=
  try_except_Exception (
    game <- query_get TGame view (PyInt id) ;;
    return_if (is_absent game)
      (jsonify_error (lit "Game not found") 404) ;;;
    session_delete id ;;;
    session_commit ;;;
    return_ (jsonify_message (lit "Game deleted successfully") 200)).

End Handlers.

Arguments Val {MD A} a s.
Arguments Ret {MD A} r s.
Arguments Exc {MD A} e s.

(* ===================================================================== *)
(** * A concrete instance, to run the handlers on *)
(* ===================================================================== *)

(** The largest key of a table, with a floor. *)
Definition max_key {A : Type} (floor : Z) (m : gmap Z A) : Z :=
  foldr Z.max floor (List.map fst (map_to_list m)).

(** An instance of the imported parts: a publisher is its name, a key that
    is not an [int] is an error of the driver except [None], which finds no
    row; [Game] has no hooks and the table no constraints; a new row gets
    the next key; a game serializes to its columns. *)
Definition demo_models : Models := {|
  Publisher := pystr;
  pk_coerce := fun key => match key with PyNone => PkNoRow | _ => PkError end;
  Game_validates := fun _ v => Ok v;
  Game_storable := fun _ => true;
  next_game_id := fun m => 1 + max_key 0 m;
  Game_to_dict := fun id g _ _ =>
    PyDict (list_to_map
              [ (lit "id", PyInt id);
                (lit "title", game_title g);
                (lit "description", game_description g);
                (lit "star_rating", game_star_rating g);
                (lit "publisher_id", game_publisher_id g);
                (lit "category_id", game_category_id g) ]);
  unhandled_body := PyStr (lit "Internal Server Error")
|}.

Definition demo_category : Category :=
  mkCategory (PyInt 1) (PyStr (lit "Strategy"))
    (PyStr (lit "Games of planning")) None.

Definition demo_game : Game :=
  mkGame (PyStr (lit "Old title")) (PyStr (lit "A long description"))
    PyNone (PyInt 1) (PyInt 1).

(** One publisher, one category, one game; all with key 1. *)
Definition demo_db : Store (MD := demo_models) :=
  mkStore (MD := demo_models)
    {[ 1 := lit "Contoso" ]} {[ 1 := demo_category ]} {[ 1 := demo_game ]}.

Definition demo_session : Session (MD := demo_models) := open_session demo_db.

(** [{"title": "New title", "publisher_id": 999}] *)
Definition demo_update_payload : pyval :=
  PyDict (list_to_map
            [ (lit "title", PyStr (lit "New title"));
              (lit "publisher_id", PyInt 999) ]).

(** [{"description": "A long description", "category_id": 1}] *)
Definition demo_create_dict : gmap pystr pyval :=
  list_to_map
    [ (lit "description", PyStr (lit "A long description"));
      (lit "category_id", PyInt 1) ].

Definition demo_create_payload : pyval := PyDict demo_create_dict.

(** [{"title": "T", "description": "D", "publisher_id": pid,
    "category_id": cid}] *)
Definition demo_full_payload (pid cid : Z) : gmap pystr pyval :=
  list_to_map
    [ (lit "title", PyStr (lit "T"));
      (lit "description", PyStr (lit "D"));
      (lit "publisher_id", PyInt pid);
      (lit "category_id", PyInt cid) ].

(* ===================================================================== *)
(** * Notions the further properties are stated with *)
(* ===================================================================== *)

(** A value the hook of [Category.name] accepts. *)
Definition name_ok (v : pyval) : bool :=
  match v with
  | PyStr s => 2 <=? pylen (strip s)
  | _ => false
  end.

(** A value the hook of [Category.description] accepts. *)
Definition description_ok (v : pyval) : bool :=
  match v with
  | PyNone => true
  | PyStr s => 10 <=? pylen (strip s)
  | _ => false
  end.

(** A value the hook of the attribute accepts; [id] has no hook. *)
Definition kwarg_ok (kw : cat_attr * pyval) : bool :=
  match fst kw with
  | CId => true
  | CName => name_ok (snd kw)
  | CDescription => description_ok (snd kw)
  end.

(** The columns of a category satisfy the constraints of their hooks; a
    name that was never assigned reads [None]. *)
Definition Category_valid (c : Category) : bool :=
  (is_none (cat_name c) || name_ok (cat_name c))
  && description_ok (cat_description c).

(** The attribute of a game an assignment to [a] sets. *)
Definition Game_load (g : Game) (a : game_attr) : pyval :=
  match a with
  | GTitle => game_title g
  | GDescription => game_description g
  | GStarRating => game_star_rating g
  | GPublisherId => game_publisher_id g
  | GCategoryId => game_category_id g
  end.

(** The keys [update_game] looks for in the payload, in its order, each
    with the attribute it sets. *)
Definition update_fields : list (pystr * game_attr) :=
  [ (lit "title", GTitle);
    (lit "description", GDescription);
    (lit "star_rating", GStarRating);
    (lit "publisher_id", GPublisherId);
    (lit "category_id", GCategoryId) ].

(** However the statement ends, it leaves the session in [Inv]. *)
Definition keeps {MD : Models} {A : Type}
    (Inv : Session -> Prop) (m : M A) (s : Session) : Prop :=
  match m s with
  | Val _ s' => Inv s'
  | Ret _ s' => Inv s'
  | Exc _ s' => Inv s'
  end.

(** The body of a handler answers [code] or leaves the session in
    [Inv]. *)
Definition answers_or_keeps {MD : Models}
    (code : Z) (Inv : Session -> Prop) (m : M Response) (s : Session)
  : Prop :=
  match m s with
  | Val r s' => status r = code \/ Inv s'
  | Ret r s' => status r = code \/ Inv s'
  | Exc _ s' => Inv s'
  end.

(** The key the example's database gives the next game. *)
Definition demo_new_id : Z :=
  next_game_id (Models := demo_models) (games demo_db).

(** An instance whose [Game] refuses a title of fewer than 2 trimmed
    characters on assignment and whose table refuses a row without a
    description. *)
Definition strict_models : Models := {|
  Publisher := pystr;
  pk_coerce := fun key => match key with PyNone => PkNoRow | _ => PkError end;
  Game_validates := fun a v =>
    match a with
    | GTitle => validate_string_length (lit "Game title") v 2 false
    | _ => Ok v
    end;
  Game_storable := fun g => negb (is_none (game_description g));
  next_game_id := fun m => 1 + max_key 0 m;
  Game_to_dict := fun id g _ _ =>
    PyDict (list_to_map
              [ (lit "id", PyInt id);
                (lit "title", game_title g);
                (lit "description", game_description g) ]);
  unhandled_body := PyStr (lit "Internal Server Error")
|}.

Definition strict_db : Store (MD := strict_models) :=
  mkStore (MD := strict_models)
    {[ 1 := lit "Contoso" ]} {[ 1 := demo_category ]} {[ 1 := demo_game ]}.

Definition strict_session : Session (MD := strict_models) :=
  open_session strict_db.

(* ===================================================================== *)
(** * The string validator *)
(* ===================================================================== *)

Lemma lstrip_all_space (s : pystr) :
  forallb isspace s = true -> lstrip s = [].
Proof.
  induction s as [|c r IH]; simpl; [reflexivity|].
  intros Hs. apply andb_prop in Hs as [Hc Hr].
  rewrite Hc. apply IH, Hr.
Qed.

Lemma strip_all_space (s : pystr) :
  forallb isspace s = true -> strip s = [].
Proof.
  intros Hs. unfold strip, rstrip.
  rewrite (lstrip_all_space s Hs). reflexivity.
Qed.

Lemma lstrip_length (s : pystr) : (length (lstrip s) <= length s)%nat.
Proof.
  induction s as [|c r IH]; simpl; [lia|].
  destruct (isspace c); simpl; lia.
Qed.

Lemma strip_length (s : pystr) : pylen (strip s) <= pylen s.
Proof.
  unfold pylen, strip, rstrip.
  rewrite length_rev.
  pose proof (lstrip_length (rev (lstrip s))) as H1.
  pose proof (lstrip_length s) as H2.
  rewrite length_rev in H1. lia.
Qed.

Lemma validate_string_length_str field (s : pystr) min allow_none :
  validate_string_length field (PyStr s) min allow_none =
  if pylen (strip s) <? min
  then Raise (ValueError (field ++ lit " must be at least "
                            ++ str_of_int min ++ lit " characters"))
  else Ok (PyStr s).
Proof. reflexivity. Qed.

(** C2. The string validator, case by case: an absent value is returned
    as it is when absence is allowed and fails with "<field> cannot be
    empty" when it is not; a value that is present and not a string fails
    with "<field> must be a string"; a string whose trimmed length is below
    the minimum fails with "<field> must be at least <min> characters"; any
    other string is returned as it was given, untrimmed; and whatever the
    validator returns is its argument. *)
Theorem validate_string_length_cases
    (field : pystr) (value : pyval) (min : Z) (allow_none : bool) :
  (value = PyNone -> allow_none = true ->
   validate_string_length field value min allow_none = Ok value) /\
  (value = PyNone -> allow_none = false ->
   validate_string_length field value min allow_none =
   Raise (ValueError (field ++ lit " cannot be empty"))) /\
  (value <> PyNone -> (forall s, value <> PyStr s) ->
   validate_string_length field value min allow_none =
   Raise (ValueError (field ++ lit " must be a string"))) /\
  (forall s, value = PyStr s -> pylen (strip s) < min ->
   validate_string_length field value min allow_none =
   Raise (ValueError (field ++ lit " must be at least " ++ str_of_int min
                        ++ lit " characters"))) /\
  (forall s, value = PyStr s -> min <= pylen (strip s) ->
   validate_string_length field value min allow_none = Ok (PyStr s)) /\
  (forall v, validate_string_length field value min allow_none = Ok v ->
   v = value).
Proof.
  repeat split.
  - intros -> ->. reflexivity.
  - intros -> ->. reflexivity.
  - intros Hnone Hstr. destruct value; try reflexivity.
    + contradiction.
    + exfalso. apply (Hstr s). reflexivity.
  - intros s -> Hlt. rewrite validate_string_length_str.
    apply Z.ltb_lt in Hlt. rewrite Hlt. reflexivity.
  - intros s -> Hge. rewrite validate_string_length_str.
    apply Z.ltb_ge in Hge. rewrite Hge. reflexivity.
  - intros v. unfold validate_string_length.
    destruct value; simpl; try discriminate.
    + destruct allow_none; [congruence | discriminate].
    + destruct (pylen (strip s) <? min); [discriminate | congruence].
Qed.

(** The validator on [None], on [7], on [" a "] and on [" ab "]: the
    trimmed length 2 passes and the value comes back with its spaces. *)
Lemma validate_string_length_cases_witness :
  validate_string_length (lit "Description") PyNone 10 true = Ok PyNone /\
  validate_string_length (lit "Category name") PyNone 2 false =
    Raise (ValueError (lit "Category name" ++ lit " cannot be empty")) /\
  validate_string_length (lit "Description") (PyInt 7) 10 true =
    Raise (ValueError (lit "Description" ++ lit " must be a string")) /\
  validate_string_length (lit "Category name") (PyStr (lit " a ")) 2 false =
    Raise (ValueError (lit "Category name" ++ lit " must be at least "
                         ++ str_of_int 2 ++ lit " characters")) /\
  validate_string_length (lit "Category name") (PyStr (lit " ab "))
    default_min_length default_allow_none = Ok (PyStr (lit " ab ")).
Proof.
  split; [|split; [|split; [|split]]].
  - apply (proj1 (validate_string_length_cases (lit "Description")
                    PyNone 10 true)); reflexivity.
  - apply (proj1 (proj2 (validate_string_length_cases (lit "Category name")
                           PyNone 2 false))); reflexivity.
  - apply (proj1 (proj2 (proj2
             (validate_string_length_cases (lit "Description")
                (PyInt 7) 10 true)))).
    + discriminate.
    + intros s. discriminate.
  - apply (proj1 (proj2 (proj2 (proj2
             (validate_string_length_cases (lit "Category name")
                (PyStr (lit " a ")) 2 false)))) (lit " a ")).
    + reflexivity.
    + reflexivity.
  - apply (proj1 (proj2 (proj2 (proj2 (proj2
             (validate_string_length_cases (lit "Category name")
                (PyStr (lit " ab ")) default_min_length
                default_allow_none))))) (lit " ab ")).
    + reflexivity.
    + vm_compute. discriminate.
Defined.

Example validate_short_name :
  validate_string_length (lit "Category name") (PyStr (lit " a  ")) 2 false =
  Raise (ValueError (lit "Category name must be at least 2 characters")).
Proof. reflexivity. Qed.

Example validate_not_a_string :
  validate_string_length (lit "Description") (PyInt 7) 10 true =
  Raise (ValueError (lit "Description must be a string")).
Proof. reflexivity. Qed.

(* ===================================================================== *)
(** * Category *)
(* ===================================================================== *)

Lemma Category_setattr_name (self : Category) (v : pyval) :
  Category_setattr self CName v =
  res_bind (validate_string_length (lit "Category name") v 2 false)
    (fun v' => Ok (with_name self v')).
Proof. reflexivity. Qed.

Lemma Category_setattr_description (self : Category) (v : pyval) :
  Category_setattr self CDescription v =
  res_bind (validate_string_length (lit "Description") v 10 true)
    (fun v' => Ok (with_description self v')).
Proof. reflexivity. Qed.

(** C6. Validation on assignment to a [Category]: the hook of [name] is the
    string validator with minimum 2 and absence refused, the hook of
    [description] the string validator with minimum 10 and absence allowed,
    and an assignment runs the hook before it stores. So assigning [None]
    to [name], or a string of fewer than 2 trimmed characters (all white
    space included), raises the validator's message and stores nothing;
    assigning [None] to [description] is accepted, a value that is not a
    string raises the type message, and a string of fewer than 10 trimmed
    characters raises the length message. *)
Theorem category_validates_on_assignment (self : Category) (v : pyval) :
  (forall key, validate_name self key v =
               validate_string_length (lit "Category name") v 2 false) /\
  (forall key, validate_description self key v =
               validate_string_length (lit "Description") v 10 true) /\
  Category_setattr self CName v =
    res_bind (validate_name self (lit "name") v)
      (fun v' => Ok (with_name self v')) /\
  Category_setattr self CDescription v =
    res_bind (validate_description self (lit "description") v)
      (fun v' => Ok (with_description self v')) /\
  (v = PyNone ->
   Category_setattr self CName v =
   Raise (ValueError (lit "Category name cannot be empty"))) /\
  (forall s, v = PyStr s -> pylen (strip s) < 2 ->
   Category_setattr self CName v =
   Raise (ValueError (lit "Category name must be at least 2 characters"))) /\
  (forall s, v = PyStr s -> forallb isspace s = true ->
   Category_setattr self CName v =
   Raise (ValueError (lit "Category name must be at least 2 characters"))) /\
  (v = PyNone ->
   Category_setattr self CDescription v =
   Ok (with_description self PyNone)) /\
  (v <> PyNone -> (forall s, v <> PyStr s) ->
   Category_setattr self CDescription v =
   Raise (ValueError (lit "Description must be a string"))) /\
  (forall s, v = PyStr s -> pylen (strip s) < 10 ->
   Category_setattr self CDescription v =
   Raise (ValueError (lit "Description must be at least 10 characters"))).
Proof.
  assert (Hshort : forall s, v = PyStr s -> pylen (strip s) < 2 ->
            Category_setattr self CName v =
            Raise (ValueError
                     (lit "Category name must be at least 2 characters"))).
  { intros s -> Hlt. rewrite Category_setattr_name.
    rewrite validate_string_length_str.
    apply Z.ltb_lt in Hlt. rewrite Hlt. reflexivity. }
  repeat split; try reflexivity.
  - intros ->. reflexivity.
  - exact Hshort.
  - intros s Hv Hs. apply (Hshort s Hv).
    rewrite (strip_all_space s Hs). reflexivity.
  - intros ->. reflexivity.
  - intros Hnone Hstr. rewrite Category_setattr_description.
    destruct v; try reflexivity.
    + contradiction.
    + exfalso. apply (Hstr s). reflexivity.
  - intros s -> Hlt. rewrite Category_setattr_description.
    rewrite validate_string_length_str.
    apply Z.ltb_lt in Hlt. rewrite Hlt. reflexivity.
Qed.

(** Assignments to a blank category: the name [None], the names ["a"] and
    ["  "], and the descriptions [None], [7] and ["too short"]. *)
Lemma category_validates_on_assignment_witness :
  Category_setattr Category_blank CName PyNone =
    Raise (ValueError (lit "Category name cannot be empty")) /\
  Category_setattr Category_blank CName (PyStr (lit "a")) =
    Raise (ValueError (lit "Category name must be at least 2 characters")) /\
  Category_setattr Category_blank CName (PyStr (lit "  ")) =
    Raise (ValueError (lit "Category name must be at least 2 characters")) /\
  Category_setattr Category_blank CDescription PyNone =
    Ok (with_description Category_blank PyNone) /\
  Category_setattr Category_blank CDescription (PyInt 7) =
    Raise (ValueError (lit "Description must be a string")) /\
  Category_setattr Category_blank CDescription (PyStr (lit "too short")) =
    Raise (ValueError (lit "Description must be at least 10 characters")).
Proof.
  split; [|split; [|split; [|split; [|split]]]].
  - apply (proj1 (proj2 (proj2 (proj2 (proj2
             (category_validates_on_assignment Category_blank PyNone)))))).
    reflexivity.
  - apply (proj1 (proj2 (proj2 (proj2 (proj2 (proj2
             (category_validates_on_assignment Category_blank
                (PyStr (lit "a")))))))) (lit "a")).
    + reflexivity.
    + reflexivity.
  - apply (proj1 (proj2 (proj2 (proj2 (proj2 (proj2 (proj2
             (category_validates_on_assignment Category_blank
                (PyStr (lit "  "))))))))) (lit "  ")).
    + reflexivity.
    + reflexivity.
  - apply (proj1 (proj2 (proj2 (proj2 (proj2 (proj2 (proj2 (proj2
             (category_validates_on_assignment Category_blank
                PyNone))))))))).
    reflexivity.
  - apply (proj1 (proj2 (proj2 (proj2 (proj2 (proj2 (proj2 (proj2 (proj2
             (category_validates_on_assignment Category_blank
                (PyInt 7))))))))))).
    + discriminate.
    + intros s. discriminate.
  - apply (proj2 (proj2 (proj2 (proj2 (proj2 (proj2 (proj2 (proj2 (proj2
             (category_validates_on_assignment Category_blank
                (PyStr (lit "too short"))))))))))) (lit "too short")).
    + reflexivity.
    + reflexivity.
Defined.

Lemma game_count_length (self : Category) (l : list Game) :
  cat_games self = Some l -> game_count self = Z.of_nat (length l).
Proof.
  unfold game_count. intros ->. destruct l; reflexivity.
Qed.

Lemma Category_init_name_description (name description : pyval) n :
  name = PyStr n -> 2 <= pylen (strip n) ->
  (description = PyNone \/
   exists d, description = PyStr d /\ 10 <= pylen (strip d)) ->
  Category_init [(CName, name); (CDescription, description)] =
  Ok (mkCategory PyNone name description (Some [])).
Proof.
  intros -> Hn Hd. unfold Category_init. cbn [Category_init_from].
  rewrite Category_setattr_name, validate_string_length_str.
  apply Z.ltb_ge in Hn. rewrite Hn. cbn [res_bind].
  rewrite Category_setattr_description.
  destruct Hd as [-> | (d & -> & Hd)]; [reflexivity|].
  rewrite validate_string_length_str.
  apply Z.ltb_ge in Hd. rewrite Hd. reflexivity.
Qed.

(** C9. [to_dict()] of a category is the dictionary with exactly the keys
    [id], [name], [description] and [game_count], holding the three
    attributes and the size of the related collection, which is 0 when the
    collection is empty or absent. A category constructed from a name of at
    least 2 trimmed characters and a description that is absent ([None], or
    not given) or of at least 10 trimmed characters is constructed without
    error, and its [to_dict()] reports a [game_count] of 0. *)
Theorem category_to_dict_game_count (self : Category) :
  dom (Category_to_dict self) =
    ({[ lit "id"; lit "name"; lit "description"; lit "game_count" ]}
     : gset pystr) /\
  Category_to_dict self !! lit "id" = Some (cat_id self) /\
  Category_to_dict self !! lit "name" = Some (cat_name self) /\
  Category_to_dict self !! lit "description" = Some (cat_description self) /\
  Category_to_dict self !! lit "game_count" =
    Some (PyInt (game_count self)) /\
  (forall l, cat_games self = Some l ->
             game_count self = Z.of_nat (length l)) /\
  (cat_games self = Some [] \/ cat_games self = None ->
   game_count self = 0) /\
  (forall name description n,
     name = PyStr n -> 2 <= pylen (strip n) ->
     (description = PyNone \/
      exists d, description = PyStr d /\ 10 <= pylen (strip d)) ->
     exists c c',
       Category_init [(CName, name); (CDescription, description)] = Ok c /\
       Category_init [(CName, name)] = Ok c' /\
       cat_name c = name /\ cat_description c = description /\
       cat_name c' = name /\ cat_description c' = PyNone /\
       Category_to_dict c !! lit "game_count" = Some (PyInt 0) /\
       Category_to_dict c' !! lit "game_count" = Some (PyInt 0)).
Proof.
  split; [vm_compute; reflexivity|].
  do 4 (split; [reflexivity|]).
  split; [apply game_count_length|].
  split.
  { unfold game_count. intros [-> | ->]; reflexivity. }
  intros name description n Hname Hn Hd.
  exists (mkCategory PyNone name description (Some [])),
         (mkCategory PyNone name PyNone (Some [])).
  split; [apply (Category_init_name_description _ _ n); assumption|].
  split.
  { subst name. unfold Category_init. cbn [Category_init_from].
    rewrite Category_setattr_name, validate_string_length_str.
    apply Z.ltb_ge in Hn. rewrite Hn. reflexivity. }
  repeat split; reflexivity.
Qed.

(** A category named ["RPG"] with no description has a [game_count] of 0. *)
Lemma category_to_dict_game_count_witness :
  exists c c',
    Category_init [(CName, PyStr (lit "RPG")); (CDescription, PyNone)]
      = Ok c /\
    Category_init [(CName, PyStr (lit "RPG"))] = Ok c' /\
    cat_name c = PyStr (lit "RPG") /\ cat_description c = PyNone /\
    cat_name c' = PyStr (lit "RPG") /\ cat_description c' = PyNone /\
    Category_to_dict c !! lit "game_count" = Some (PyInt 0) /\
    Category_to_dict c' !! lit "game_count" = Some (PyInt 0).
Proof.
  apply (proj2 (proj2 (proj2 (proj2 (proj2 (proj2 (proj2
           (category_to_dict_game_count Category_blank)))))))
         (PyStr (lit "RPG")) PyNone (lit "RPG")).
  - reflexivity.
  - vm_compute. discriminate.
  - left. reflexivity.
Defined.

Example category_to_dict_two_games :
  Category_to_dict
    (mkCategory (PyInt 1) (PyStr (lit "RPG")) PyNone
       (Some [demo_game; demo_game])) !! lit "game_count"
  = Some (PyInt 2).
Proof. reflexivity. Qed.

(* ===================================================================== *)
(** * The composed query *)
(* ===================================================================== *)

Lemma outer_join_functional {A B : Type}
    (on : A -> B -> bool) (f : A -> option B) (l : list A) (r : list B) :
  (forall a, List.filter (on a) r =
             match f a with Some b => [b] | None => [] end) ->
  outer_join on l r = List.map (fun a => (a, f a)) l.
Proof.
  intros Hf. unfold outer_join.
  induction l as [|a l IH]; [reflexivity|].
  rewrite map_cons, <- IH.
  change (a :: l) with ([a] ++ l). rewrite flat_map_app.
  f_equal. cbn [flat_map]. rewrite Hf, app_nil_r.
  destruct (f a); reflexivity.
Qed.

Lemma filter_key_absent {A : Type} (l : list (Z * A)) (k : Z) :
  k ∉ l.*1 -> List.filter (fun p => k =? fst p) l = [].
Proof.
  induction l as [|[k' v] l IH]; simpl; [reflexivity|].
  intros Hk. apply not_elem_of_cons in Hk as [Hne Hk].
  destruct (Z.eqb_spec k k'); [contradiction|]. apply IH, Hk.
Qed.

Lemma filter_key_present {A : Type} (l : list (Z * A)) (k : Z) (v : A) :
  NoDup (l.*1) -> (k, v) ∈ l ->
  List.filter (fun p => k =? fst p) l = [(k, v)].
Proof.
  induction l as [|[k' v'] l IH]; simpl; intros Hnd Hin.
  - inversion Hin.
  - apply NoDup_cons in Hnd as [Hk' Hnd].
    apply elem_of_cons in Hin as [Heq | Hin].
    + inversion Heq; subst k' v'. rewrite Z.eqb_refl.
      rewrite (filter_key_absent l k Hk'). reflexivity.
    + destruct (Z.eqb_spec k k') as [-> | Hne].
      * exfalso. apply Hk'. apply list_elem_of_fmap.
        exists (k', v). split; [reflexivity | exact Hin].
      * apply IH; assumption.
Qed.

Lemma filter_key_map_to_list {A : Type} (m : gmap Z A) (k : Z) :
  List.filter (fun p => k =? fst p) (map_to_list m) =
  match m !! k with Some v => [(k, v)] | None => [] end.
Proof.
  destruct (m !! k) as [v|] eqn:Hk.
  - apply filter_key_present.
    + apply NoDup_fst_map_to_list.
    + apply elem_of_map_to_list, Hk.
  - apply filter_key_absent. intros Hin.
    apply list_elem_of_fmap in Hin as ([k' v] & Hk' & Hin).
    simpl in Hk'. subst k'.
    apply elem_of_map_to_list in Hin. congruence.
Qed.

Lemma filter_none {A : Type} (l : list A) :
  List.filter (fun _ => false) l = [].
Proof. induction l; simpl; auto. Qed.

Section Query.
Context {MD : Models}.

Lemma filter_related {A : Type} (rows : gmap Z A) (key : pyval) :
  List.filter (fun p => pk_matches key (fst p)) (map_to_list rows) =
  match related rows key with Some p => [p] | None => [] end.
Proof.
  unfold pk_matches, related.
  destruct (pk_of key) as [k| |].
  - rewrite filter_key_map_to_list. destruct (rows !! k); reflexivity.
  - apply filter_none.
  - apply filter_none.
Qed.

(** The composed query has one row for each game the session sees,
    carrying the publisher and the category the game refers to, or no
    publisher or category where the reference is dangling. *)
Lemma get_games_base_query_rows (s : Session) :
  get_games_base_query s = List.map (hydrate s) (map_to_list (view s)).
Proof.
  unfold get_games_base_query.
  rewrite (outer_join_functional _
             (fun g => related (publishers (stored s))
                         (game_publisher_id (snd g)))).
  2:{ intros g. apply filter_related. }
  rewrite (outer_join_functional _
             (fun gp => related (categories (stored s))
                          (game_category_id (snd (fst gp))))).
  2:{ intros gp. apply filter_related. }
  rewrite List.map_map. reflexivity.
Qed.

Lemma get_games_base_query_log (e : event) (s : Session) :
  get_games_base_query (log e s) = get_games_base_query s.
Proof. reflexivity. Qed.

Lemma filter_by_id_rows (id : Z) (s : Session) :
  filter_by_id id get_games_base_query s =
  match view s !! id with
  | Some g => [hydrate s (id, g)]
  | None => []
  end.
Proof.
  unfold filter_by_id. rewrite get_games_base_query_rows.
  assert (Hmap : forall l : list (Z * Game),
            List.filter (fun r => row_id r =? id) (List.map (hydrate s) l) =
            List.map (hydrate s) (List.filter (fun p => id =? fst p) l)).
  { induction l as [|[k g] l IH]; simpl; [reflexivity|].
    unfold row_id at 1. simpl. rewrite (Z.eqb_sym k id).
    destruct (id =? k); simpl; rewrite IH; reflexivity. }
  rewrite Hmap, filter_key_map_to_list.
  destruct (view s !! id); reflexivity.
Qed.

End Query.

(* ===================================================================== *)
(** * The handlers *)
(* ===================================================================== *)

(** Unfolds the statements of a handler, leaving the tables alone. *)
Ltac run :=
  cbv beta iota zeta delta
    [create_game update_game delete_game get_game get_games
     try_except_ValueError_Exception try_except_Exception run_plain
     bind ret return_ raise lift return_if is_absent try_get_json
     query_get first_by_id query_all
     update_field update_reference session_delete game_setattr autoflush
     py_contains py_getitem py_get is_none].

Lemma find_row_found {MD : Models} {A : Type}
    (rows : gmap Z A) (k : Z) (row : A) :
  rows !! k = Some row -> find_row rows (PyInt k) = Ok (Some row).
Proof. intros Hk. unfold find_row, pk_of. rewrite Hk. reflexivity. Qed.

Lemma find_row_absent {MD : Models} {A : Type} (rows : gmap Z A) (k : Z) :
  rows !! k = None ->
  find_row rows (PyInt k) =
  if int64 k then Ok None else Raise OverflowError.
Proof. intros Hk. unfold find_row, pk_of. rewrite Hk. reflexivity. Qed.

Lemma no_data_dict (d : gmap pystr pyval) :
  no_data (PyDict d) = bool_decide (d = ∅).
Proof.
  unfold no_data. simpl.
  destruct (decide (d = ∅)) as [-> | Hne].
  - reflexivity.
  - rewrite bool_decide_eq_false_2 by assumption.
    apply Nat.eqb_neq. intros Hsz. apply Hne, map_size_empty_iff, Hsz.
Qed.

Lemma get_game_absent {MD : Models} (id : Z) (s : Session) :
  view s !! id = None ->
  get_game id s =
  (if int64 id then jsonify_error (lit "Game not found") 404
   else mkResponse unhandled_body 500, log EvSelect s).
Proof.
  intros Hid. run. rewrite filter_by_id_rows, Hid. cbn [head].
  destruct (int64 id); reflexivity.
Qed.

Lemma get_game_absent_int64 {MD : Models} (id : Z) (s : Session) :
  view s !! id = None -> int64 id = true ->
  get_game id s = (jsonify_error (lit "Game not found") 404, log EvSelect s).
Proof.
  intros Hid Hint. rewrite (get_game_absent id s Hid), Hint. reflexivity.
Qed.

Lemma get_game_present {MD : Models} (id : Z) (g : Game) (s : Session) :
  view s !! id = Some g ->
  get_game id s =
  (mkResponse (to_dict (hydrate s (id, g))) 200, log EvSelect s).
Proof.
  intros Hid. run. rewrite filter_by_id_rows, Hid. reflexivity.
Qed.

(** C3. A create request, and an update request on an existing game,
    whose payload is absent (the body is not JSON, or is [null]) or is the
    empty object is answered 400 "No data provided"; the session is then as
    it was, but for the lookup of the game the update began with: nothing
    was added, assigned, committed or rolled back. *)
Theorem empty_payload_rejected {MD : Models} (req : request_body) (s : Session) :
  req = NotJson \/ req = Json PyNone \/ req = Json (PyDict ∅) ->
  create_game req s = (jsonify_error (lit "No data provided") 400, s) /\
  (forall id g, view s !! id = Some g ->
     update_game id req s =
     (jsonify_error (lit "No data provided") 400,
      log (EvGet TGame (PyInt id)) s)) /\
  (forall id, status (fst (update_game id req s)) <> 200).
Proof.
  intros Hreq.
  assert (Hupd : forall id g, view s !! id = Some g ->
            update_game id req s =
            (jsonify_error (lit "No data provided") 400,
             log (EvGet TGame (PyInt id)) s)).
  { intros id g Hid. run. rewrite (find_row_found _ _ _ Hid).
    destruct Hreq as [-> | [-> | ->]]; reflexivity. }
  split; [|split].
  - destruct Hreq as [-> | [-> | ->]]; reflexivity.
  - exact Hupd.
  - intros id. destruct (view s !! id) as [g|] eqn:Hid.
    + rewrite (Hupd id g Hid). simpl. discriminate.
    + run. rewrite (find_row_absent _ _ Hid).
      destruct (int64 id); simpl; discriminate.
Qed.

(** [PUT /api/games/1] with the body [{}] on the one game of the example
    is answered 400. *)
Lemma empty_payload_rejected_witness :
  update_game (MD := demo_models) 1 (Json (PyDict ∅)) demo_session =
  (jsonify_error (lit "No data provided") 400,
   log (EvGet TGame (PyInt 1)) demo_session).
Proof.
  apply (proj1 (proj2
           (empty_payload_rejected (MD := demo_models)
              (Json (PyDict ∅)) demo_session
              (or_intror (or_intror eq_refl)))) 1 demo_game).
  reflexivity.
Defined.

(** Deleting an id the session sees no game with. *)
Lemma delete_game_absent {MD : Models} (id : Z) (s : Session) :
  view s !! id = None ->
  delete_game id s =
  if int64 id
  then (jsonify_error (lit "Game not found") 404,
        log (EvGet TGame (PyInt id)) s)
  else (jsonify_error (lit "Internal server error") 500,
        session_rollback (log (EvGet TGame (PyInt id)) s)).
Proof.
  intros Hid. run. rewrite (find_row_absent _ _ Hid).
  destruct (int64 id); reflexivity.
Qed.

(** Deleting on a session with nothing pending. *)
Lemma delete_game_clean_session {MD : Models}
    (id : Z) (g : Game) (s : Session) :
  view s !! id = Some g -> dirty s = [] ->
  delete_game id s =
  (jsonify_message (lit "Game deleted successfully") 200,
   mkSession
     (mkStore (publishers (stored s)) (categories (stored s))
        (delete id (view s)))
     (delete id (view s)) []
     (trace s ++ [EvGet TGame (PyInt id); EvDelete id; EvCommit])).
Proof.
  intros Hid Hclean.
  run. rewrite (find_row_found _ _ _ Hid). unfold session_commit.
  cbn [dirty log view stored trace]. rewrite Hclean. cbn [forallb].
  rewrite <- !app_assoc. reflexivity.
Qed.

(** C8, as stated, at the id 2^64, which the route accepts: no game has
    it, and the answer is not 404: the lookup raises, the [except] clause
    rolls back and answers 500 "Internal server error". *)
Lemma delete_game_id_out_of_range :
  games demo_db !! (2 ^ 64) = None /\
  delete_game (MD := demo_models) (2 ^ 64) (open_session demo_db) =
  (jsonify_error (lit "Internal server error") 500,
   session_rollback
     (log (EvGet TGame (PyInt (2 ^ 64))) (open_session demo_db))) /\
  fst (delete_game (MD := demo_models) (2 ^ 64) (open_session demo_db)) <>
  jsonify_error (lit "Game not found") 404.
Proof.
  split; [reflexivity|].
  assert (Hdel :
    delete_game (MD := demo_models) (2 ^ 64) (open_session demo_db) =
    (jsonify_error (lit "Internal server error") 500,
     session_rollback
       (log (EvGet TGame (PyInt (2 ^ 64))) (open_session demo_db)))).
  { rewrite delete_game_absent by reflexivity. reflexivity. }
  split; [exact Hdel|].
  rewrite Hdel. cbn [fst]. intros Heq. vm_compute in Heq. discriminate.
Qed.

(** C8, amended. On the database [db] and for an id of 64 bits: a delete
    request for an id no game has is answered 404 with the body
    [{"error": "Game not found"}] and the tables are as they were; a delete
    request for the id of a game removes that game from the games table,
    commits, and is answered 200 with the body
    [{"message": "Game deleted successfully"}]; a get-by-id for that id
    afterwards, in the same session or in the session of the next request,
    is answered 404 "Game not found". For an id beyond 64 bits, which no
    game has, the lookup raises: the answer is 500 "Internal server error"
    after a rollback, and the tables are as they were. *)
Theorem delete_game_removes_row {MD : Models} (db : Store) (id : Z) :
  (int64 id = true -> games db !! id = None ->
   exists s',
     delete_game id (open_session db) =
     (mkResponse (PyDict {[ lit "error" := PyStr (lit "Game not found") ]})
        404, s') /\
     stored s' = db /\ view s' = games db /\
     trace s' = [EvGet TGame (PyInt id)]) /\
  (int64 id = true -> forall g, games db !! id = Some g ->
     exists s',
       delete_game id (open_session db) =
       (mkResponse
          (PyDict {[ lit "message" :=
                       PyStr (lit "Game deleted successfully") ]}) 200,
        s') /\
       games (stored s') = delete id (games db) /\
       publishers (stored s') = publishers db /\
       categories (stored s') = categories db /\
       trace s' = [EvGet TGame (PyInt id); EvDelete id; EvCommit] /\
       fst (get_game id s') =
         mkResponse
           (PyDict {[ lit "error" := PyStr (lit "Game not found") ]}) 404 /\
       fst (get_game id (open_session (stored s'))) =
         mkResponse
           (PyDict {[ lit "error" := PyStr (lit "Game not found") ]}) 404) /\
  (int64 id = false -> games db !! id = None ->
   exists s',
     delete_game id (open_session db) =
     (mkResponse
        (PyDict {[ lit "error" := PyStr (lit "Internal server error") ]})
        500, s') /\
     stored s' = db /\ view s' = games db /\ dirty s' = [] /\
     trace s' = [EvGet TGame (PyInt id); EvRollback]).
Proof.
  split; [|split].
  - intros Hint Hid. eexists. split.
    + rewrite (delete_game_absent id (open_session db) Hid), Hint.
      reflexivity.
    + destruct db; repeat split.
  - intros Hint g Hid. eexists. split.
    + apply (delete_game_clean_session id g (open_session db) Hid eq_refl).
    + cbn [stored games publishers categories trace open_session view app].
      repeat split.
      * rewrite get_game_absent_int64;
          [reflexivity | apply lookup_delete_eq | exact Hint].
      * rewrite get_game_absent_int64;
          [reflexivity | apply lookup_delete_eq | exact Hint].
  - intros Hint Hid. eexists. split.
    + rewrite (delete_game_absent id (open_session db) Hid), Hint.
      reflexivity.
    + destruct db; repeat split.
Qed.

(** In the example: deleting game 5, which does not exist, changes
    nothing; deleting game 1 empties the games table; deleting game 2^64
    is answered 500. *)
Lemma delete_game_removes_row_witness :
  (exists s',
     delete_game (MD := demo_models) 5 (open_session demo_db) =
     (mkResponse (PyDict {[ lit "error" := PyStr (lit "Game not found") ]})
        404, s') /\
     stored s' = demo_db /\ view s' = games demo_db /\
     trace s' = [EvGet TGame (PyInt 5)]) /\
  (exists s',
     delete_game (MD := demo_models) 1 (open_session demo_db) =
     (mkResponse
        (PyDict {[ lit "message" :=
                     PyStr (lit "Game deleted successfully") ]}) 200,
      s') /\
     games (stored s') = delete 1 (games demo_db) /\
     publishers (stored s') = publishers demo_db /\
     categories (stored s') = categories demo_db /\
     trace s' = [EvGet TGame (PyInt 1); EvDelete 1; EvCommit] /\
     fst (get_game 1 s') =
       mkResponse
         (PyDict {[ lit "error" := PyStr (lit "Game not found") ]}) 404 /\
     fst (get_game 1 (open_session (stored s'))) =
       mkResponse
         (PyDict {[ lit "error" := PyStr (lit "Game not found") ]}) 404) /\
  (exists s',
     delete_game (MD := demo_models) (2 ^ 64) (open_session demo_db) =
     (mkResponse
        (PyDict {[ lit "error" := PyStr (lit "Internal server error") ]})
        500, s') /\
     stored s' = demo_db /\ view s' = games demo_db /\ dirty s' = [] /\
     trace s' = [EvGet TGame (PyInt (2 ^ 64)); EvRollback]).
Proof.
  split; [|split].
  - apply (proj1 (delete_game_removes_row (MD := demo_models) demo_db 5)).
    + reflexivity.
    + reflexivity.
  - apply (proj1 (proj2 (delete_game_removes_row (MD := demo_models)
                           demo_db 1)) eq_refl demo_game).
    reflexivity.
  - apply (proj2 (proj2 (delete_game_removes_row (MD := demo_models)
                           demo_db (2 ^ 64)))).
    + reflexivity.
    + reflexivity.
Defined.

Lemma find_split {A : Type} (f : A -> bool) (l : list A) (x : A) :
  List.find f l = Some x ->
  exists before after,
    l = before ++ x :: after /\
    Forall (fun y => f y = false) before /\ f x = true.
Proof.
  induction l as [|a l IH]; simpl; [discriminate|].
  destruct (f a) eqn:Hfa.
  - intros [= ->]. exists [], l. auto.
  - intros Hfind. destruct (IH Hfind) as (before & after & -> & Hb & Hx).
    exists (a :: before), after. auto.
Qed.

Lemma find_first {A : Type} (f : A -> bool) (before after : list A) (x : A) :
  Forall (fun y => f y = false) before -> f x = true ->
  List.find f (before ++ x :: after) = Some x.
Proof.
  induction 1 as [|a before Ha _ IH]; simpl; intros Hx.
  - rewrite Hx. reflexivity.
  - rewrite Ha. apply IH, Hx.
Qed.

Lemma find_all_false {A : Type} (f : A -> bool) (l : list A) :
  Forall (fun y => f y = false) l -> List.find f l = None.
Proof.
  induction 1 as [|a l Ha _ IH]; simpl; [reflexivity|].
  rewrite Ha. exact IH.
Qed.

(** The loop over the required fields, on a dictionary: it returns 400
    for the first field that is missing or null, and falls through when
    there is none. *)
Lemma check_required_dict {MD : Models}
    (d : gmap pystr pyval) (fields : list pystr) (s : Session) :
  check_required (PyDict d) fields s =
  match List.find (missing d) fields with
  | Some field =>
      Ret (jsonify_error (lit "Missing required field: " ++ field) 400) s
  | None => Val tt s
  end.
Proof.
  induction fields as [|field rest IH]; [reflexivity|].
  cbn [check_required List.find]. unfold missing at 1. run.
  destruct (d !! field) as [v|]; [|reflexivity].
  destruct v; cbn; try apply IH; reflexivity.
Qed.

(** C4, as stated, at the empty object: all four fields are missing from
    [{}], and the answer is 400 "No data provided", which names no field:
    the check for an empty payload comes before the loop over the required
    fields. *)
Lemma empty_object_names_no_field :
  Exists (fun field => missing ∅ field = true) required_fields /\
  create_game (MD := demo_models) (Json (PyDict ∅)) demo_session =
    (jsonify_error (lit "No data provided") 400, demo_session) /\
  forall field,
    fst (create_game (MD := demo_models) (Json (PyDict ∅)) demo_session) <>
    jsonify_error (lit "Missing required field: " ++ field) 400.
Proof.
  split; [apply Exists_cons_hd; reflexivity|].
  split; [reflexivity|].
  intros field Heq. vm_compute in Heq. discriminate.
Qed.

(** C4, amended. A create payload that is a non-empty object in which one
    of [title], [description], [publisher_id], [category_id] is missing or
    null is answered 400 with "Missing required field: <name>", where
    <name> is the first such field in that order; the session is as it was:
    no later field was reported, nothing was looked up and nothing
    written. *)
Theorem first_missing_field_reported {MD : Models}
    (d : gmap pystr pyval) (s : Session) :
  d <> ∅ ->
  Exists (fun field => missing d field = true) required_fields ->
  exists field before after,
    required_fields = before ++ field :: after /\
    Forall (fun f => missing d f = false) before /\
    missing d field = true /\
    create_game (Json (PyDict d)) s =
    (jsonify_error (lit "Missing required field: " ++ field) 400, s).
Proof.
  intros Hne Hex.
  destruct (List.find (missing d) required_fields) as [field|] eqn:Hfind.
  - destruct (find_split _ _ _ Hfind) as (before & after & Hreq & Hb & Hx).
    exists field, before, after. repeat split; try assumption.
    run. rewrite no_data_dict, bool_decide_eq_false_2 by assumption.
    rewrite check_required_dict, Hfind. reflexivity.
  - exfalso. apply Exists_exists in Hex as (field & Hin & Hmiss).
    apply list_elem_of_In in Hin.
    apply (find_none _ _ Hfind) in Hin. congruence.
Qed.

(** [{"description": ..., "category_id": 1}]: the title is reported, the
    publisher is not. *)
Lemma first_missing_field_reported_witness :
  exists field before after,
    required_fields = before ++ field :: after /\
    Forall (fun f => missing demo_create_dict f = false) before /\
    missing demo_create_dict field = true /\
    create_game (MD := demo_models) (Json demo_create_payload) demo_session =
    (jsonify_error (lit "Missing required field: " ++ field) 400,
     demo_session).
Proof.
  apply (first_missing_field_reported (MD := demo_models)
           demo_create_dict demo_session).
  - vm_compute. discriminate.
  - apply Exists_cons_hd. reflexivity.
Defined.

Example create_reports_title_only :
  create_game (MD := demo_models) (Json demo_create_payload) demo_session =
  (jsonify_error (lit "Missing required field: title") 400, demo_session).
Proof. reflexivity. Qed.

Lemma present_nonempty (d : gmap pystr pyval) (key : pystr) (v : pyval) :
  d !! key = Some v -> d <> ∅.
Proof. intros Hk ->. rewrite lookup_empty in Hk. discriminate. Qed.






(* ===================================================================== *)
(** * Which responses a handler can give *)
(* ===================================================================== *)

Section Returns.
Context {MD : Models}.

Lemma returns_bind {A B : Type} (P : Response -> Session -> Prop)
    (m : M A) (k : A -> M B) (s : Session) :
  returns P m s ->
  (forall a s', m s = Val a s' -> returns P (k a) s') ->
  returns P (bind m k) s.
Proof.
  unfold returns, bind. intros Hm Hk.
  destruct (m s) as [a s'| r s' | e s']; auto.
  apply (Hk a s' eq_refl).
Qed.

Lemma answers_bind {A : Type} (P : Response -> Session -> Prop)
    (m : M A) (k : A -> M Response) (s : Session) :
  returns P m s ->
  (forall a s', m s = Val a s' -> answers P (k a) s') ->
  answers P (bind m k) s.
Proof.
  unfold returns, answers, bind. intros Hm Hk.
  destruct (m s) as [a s'| r s' | e s']; auto.
  apply (Hk a s' eq_refl).
Qed.

Lemma returns_weaken {A : Type} (P Q : Response -> Session -> Prop)
    (m : M A) (s : Session) :
  (forall r s', P r s' -> Q r s') -> returns P m s -> returns Q m s.
Proof. unfold returns. intros HPQ. destruct (m s); auto. Qed.

Lemma answers_weaken (P Q : Response -> Session -> Prop)
    (m : M Response) (s : Session) :
  (forall r s', P r s' -> Q r s') -> answers P m s -> answers Q m s.
Proof. unfold answers. intros HPQ. destruct (m s); auto. Qed.

Lemma returns_lift {A : Type} P (r : res A) (s : Session) :
  returns P (lift r) s.
Proof. unfold returns, lift. destruct r; exact I. Qed.

Lemma returns_query_get {A : Type} P t (rows : Session -> gmap Z A) key s :
  returns P (query_get t rows key) s.
Proof. unfold query_get. apply returns_lift. Qed.

Lemma returns_game_setattr P k a v s : returns P (game_setattr k a v) s.
Proof.
  unfold returns, game_setattr. destruct (Game_validates a v); exact I.
Qed.

Lemma returns_session_add P g s : returns P (session_add g) s.
Proof. exact I. Qed.

Lemma returns_session_commit P s : returns P session_commit s.
Proof. unfold returns, session_commit. destruct (forallb _ _); exact I. Qed.

Lemma returns_autoflush P s : returns P autoflush s.
Proof. unfold returns, autoflush. destruct (forallb _ _); exact I. Qed.

Lemma returns_return_if (P : Response -> Session -> Prop) c r s :
  P r s -> returns P (return_if c r) s.
Proof. unfold returns, return_if. destruct c; simpl; auto. Qed.

Lemma returns_try_get_json req s : returns refusal (try_get_json req) s.
Proof. destruct req; simpl; [left; reflexivity | exact I]. Qed.

Lemma returns_check_required data fields s :
  returns refusal (check_required data fields) s.
Proof.
  revert s. induction fields as [|field rest IH]; intros s; [exact I|].
  cbn [check_required].
  apply returns_bind; [apply returns_lift|]. intros present s1 _.
  apply returns_bind.
  { destruct (negb present); [exact I|].
    apply returns_bind; [apply returns_lift|]. intros; exact I. }
  intros miss s2 _.
  apply returns_bind; [|intros; apply IH].
  apply returns_return_if. left. reflexivity.
Qed.

Lemma returns_update_field id data key a s :
  returns refusal (update_field id data key a) s.
Proof.
  unfold update_field.
  apply returns_bind; [apply returns_lift|]. intros present s1 _.
  destruct present; [|exact I].
  apply returns_bind; [apply returns_lift|]. intros.
  apply returns_game_setattr.
Qed.

Lemma returns_update_reference {A : Type} id data key a t
    (rows : Session -> gmap Z A) msg s :
  returns refusal (update_reference id data key a t rows msg) s.
Proof.
  unfold update_reference.
  apply returns_bind; [apply returns_lift|]. intros present s1 _.
  destruct present; [|exact I].
  apply returns_bind; [apply returns_lift|]. intros k s2 _.
  apply returns_bind; [apply returns_autoflush|]. intros u sf _.
  apply returns_bind; [apply returns_query_get|]. intros row s3 _.
  destruct row; [|right; reflexivity].
  apply returns_bind; [apply returns_lift|]. intros.
  apply returns_game_setattr.
Qed.

(** The last statement of create and of update. *)
Lemma answers_refetch (id code : Z) (s : Session) :
  answers (fetched id code)
    (bind (first_by_id id)
       (fun fetched_game =>
          match fetched_game with
          | None => raise AttributeError
          | Some row => return_ (mkResponse (to_dict row) code)
          end)) s.
Proof.
  unfold answers, bind, first_by_id.
  destruct (head (filter_by_id id get_games_base_query s)) as [row|] eqn:Hrow.
  - exists row. repeat split.
    + exact Hrow.
    + simpl. apply last_snoc.
  - destruct (int64 id); exact I.
Qed.

Lemma try_except_answers (P : Response -> Session -> Prop) m s :
  answers P m s ->
  (forall r s', status r = 400 \/ status r = 500 -> P r s') ->
  P (fst (try_except_ValueError_Exception m s))
    (snd (try_except_ValueError_Exception m s)).
Proof.
  unfold answers, try_except_ValueError_Exception. intros Hm Herr.
  destruct (m s) as [r s'| r s' | e s']; simpl; auto.
  destruct e; simpl; apply Herr; simpl; auto.
Qed.

End Returns.

(** A statement before the last one of create or update: what it returns
    early is a refusal. *)
Ltac early Href :=
  first
    [ apply returns_lift | apply returns_query_get
    | apply returns_session_add | apply returns_session_commit
    | apply (returns_weaken refusal); [exact Href|];
      first
        [ apply returns_try_get_json | apply returns_check_required
        | apply returns_update_field | apply returns_update_reference
        | apply returns_return_if;
          first [left; reflexivity | right; reflexivity] ] ].

(** An answer 200 of update was read back through the composed query. *)
Lemma update_game_fetched {MD : Models}
    (id : Z) (req : request_body) (s : Session) :
  status (fst (update_game id req s)) = 200 ->
  fetched id 200 (fst (update_game id req s)) (snd (update_game id req s)).
Proof.
  set (P := fun (r : Response) (s' : Session) =>
              status r = 200 -> fetched id 200 r s').
  assert (Href : forall r s', refusal r s' -> P r s').
  { intros r s' [H4 | H4] H2; rewrite H2 in H4; discriminate. }
  unfold update_game. apply (try_except_answers P).
  - do 10 (apply answers_bind; [early Href | intros ? ? _]).
    apply (answers_weaken (fetched id 200)); [intros r sf Hf _; exact Hf|].
    apply answers_refetch.
  - intros r s' [H4 | H4] H2; rewrite H2 in H4; discriminate.
Qed.

(** An answer 201 of create was read back through the composed query. *)
Lemma create_game_fetched {MD : Models} (req : request_body) (s : Session) :
  status (fst (create_game req s)) = 201 ->
  exists new_id,
    fetched new_id 201 (fst (create_game req s)) (snd (create_game req s)).
Proof.
  set (P := fun (r : Response) (s' : Session) =>
              status r = 201 -> exists new_id, fetched new_id 201 r s').
  assert (Href : forall r s', refusal r s' -> P r s').
  { intros r s' [H4 | H4] H2; rewrite H2 in H4; discriminate. }
  unfold create_game. apply (try_except_answers P).
  - do 15 (apply answers_bind; [early Href | intros ? ? _]).
    apply answers_bind; [early Href | intros new_id ? _].
    apply answers_bind; [early Href | intros ? ? _].
    apply (answers_weaken (fetched new_id 201)).
    { intros r sf Hf _. exists new_id. exact Hf. }
    apply answers_refetch.
  - intros r s' [H4 | H4] H2; rewrite H2 in H4; discriminate.
Qed.

Lemma outer_join_keeps_left {A B : Type}
    (on : A -> B -> bool) (left : list A) (right : list B) (a : A) :
  In a left -> exists b, In (a, b) (outer_join on left right).
Proof.
  intros Ha. unfold outer_join.
  destruct (List.filter (on a) right) as [|b bs] eqn:Hmatch.
  - exists None. apply in_flat_map. exists a. split; [exact Ha|].
    rewrite Hmatch. left. reflexivity.
  - exists (Some b). apply in_flat_map. exists a. split; [exact Ha|].
    rewrite Hmatch. left. reflexivity.
Qed.

(** C7. The base query is the games the session sees, left-outer-joined
    to the publishers on [Game.publisher_id = Publisher.id] and then to the
    categories on [Game.category_id = Category.id]. It has one row for each
    game, so a game is in it whether or not its publisher or category
    reference finds a row: a dangling reference leaves that side of the row
    empty. List and get-by-id answer from this query (for an id beyond 64
    bits, which no row has, the query of get-by-id raises and the framework
    answers 500), and an answer 201 of create or 200 of update is the row
    of this query with the game's primary key, read after the commit. *)
Theorem base_query_is_the_read_path {MD : Models} (s : Session) :
  get_games_base_query s =
    outer_join
      (fun gp c => pk_matches (game_category_id (snd (fst gp))) (fst c))
      (outer_join
         (fun g p => pk_matches (game_publisher_id (snd g)) (fst p))
         (map_to_list (view s))
         (map_to_list (publishers (stored s))))
      (map_to_list (categories (stored s))) /\
  get_games_base_query s = List.map (hydrate s) (map_to_list (view s)) /\
  (forall id g,
     view s !! id = Some g ->
     In (hydrate s (id, g)) (get_games_base_query s) /\
     (related (publishers (stored s)) (game_publisher_id g) = None ->
      related (categories (stored s)) (game_category_id g) = None ->
      In (((id, g), None), None) (get_games_base_query s))) /\
  get_games s =
    (mkResponse (PyList (List.map to_dict (get_games_base_query s))) 200,
     log EvSelect s) /\
  (forall id,
     get_game id s =
     (match head (filter_by_id id get_games_base_query s) with
      | Some row => mkResponse (to_dict row) 200
      | None =>
          if int64 id then jsonify_error (lit "Game not found") 404
          else mkResponse unhandled_body 500
      end, log EvSelect s)) /\
  (forall req,
     status (fst (create_game req s)) = 201 ->
     exists new_id,
       fetched new_id 201
         (fst (create_game req s)) (snd (create_game req s))) /\
  (forall id req,
     status (fst (update_game id req s)) = 200 ->
     fetched id 200
       (fst (update_game id req s)) (snd (update_game id req s))).
Proof.
  split; [reflexivity|].
  split; [apply get_games_base_query_rows|].
  split.
  { intros id g Hid.
    assert (Hin : In (hydrate s (id, g)) (get_games_base_query s)).
    { rewrite get_games_base_query_rows. apply in_map.
      apply list_elem_of_In, elem_of_map_to_list, Hid. }
    split; [exact Hin|].
    intros Hp Hc. unfold hydrate in Hin. simpl in Hin.
    rewrite Hp, Hc in Hin. exact Hin. }
  split; [reflexivity|].
  split.
  { intros id. run.
    destruct (head (filter_by_id id get_games_base_query s));
      [reflexivity|].
    destruct (int64 id); reflexivity. }
  split.
  - intros req. apply create_game_fetched.
  - intros id req. apply update_game_fetched.
Qed.

(** A game of the example whose publisher and category do not exist. *)
Example dangling_game_is_listed :
  get_games_base_query (MD := demo_models)
    (open_session
       (mkStore (MD := demo_models) ∅ ∅
          {[ 7 := mkGame (PyStr (lit "Orphan")) PyNone PyNone
                    (PyInt 40) PyNone ]}))
  = [ (((7, mkGame (PyStr (lit "Orphan")) PyNone PyNone (PyInt 40) PyNone),
        None), None) ].
Proof. reflexivity. Qed.

(** In the example: game 1 is a row of the composed query; creating a
    game is answered 201 with the row of the composed query for the new
    key; updating game 1 with [[]] is answered 200 with its row. *)
Lemma base_query_is_the_read_path_witness :
  In (hydrate demo_session (1, demo_game))
     (get_games_base_query (MD := demo_models) demo_session) /\
  (exists new_id,
     fetched (MD := demo_models) new_id 201
       (fst (create_game (Json (PyDict (demo_full_payload 1 1)))
               demo_session))
       (snd (create_game (Json (PyDict (demo_full_payload 1 1)))
               demo_session))) /\
  fetched (MD := demo_models) 1 200
    (fst (update_game 1 (Json (PyList [])) demo_session))
    (snd (update_game 1 (Json (PyList [])) demo_session)).
Proof.
  split; [|split].
  - apply (proj1 (proj2 (proj2
             (base_query_is_the_read_path (MD := demo_models)
                demo_session))) 1 demo_game).
    reflexivity.
  - apply (proj1 (proj2 (proj2 (proj2 (proj2 (proj2
             (base_query_is_the_read_path (MD := demo_models)
                demo_session))))))
           (Json (PyDict (demo_full_payload 1 1)))).
    reflexivity.
  - apply (proj2 (proj2 (proj2 (proj2 (proj2 (proj2
             (base_query_is_the_read_path (MD := demo_models)
                demo_session))))))
           1 (Json (PyList []))).
    reflexivity.
Defined.

Example create_game_answers_201 :
  fst (create_game (MD := demo_models)
         (Json (PyDict (demo_full_payload 1 1))) demo_session) =
  mkResponse
    (Game_to_dict (Models := demo_models) 2
       (mkGame (PyStr (lit "T")) (PyStr (lit "D")) PyNone
          (PyInt 1) (PyInt 1)) None None) 201.
Proof. reflexivity. Qed.

(** An update with the payload [[]] on a session with nothing pending. *)
Lemma update_game_empty_list_clean_session {MD : Models}
    (id : Z) (g : Game) (s : Session) :
  view s !! id = Some g -> dirty s = [] ->
  update_game id (Json (PyList [])) s =
  (mkResponse (to_dict (hydrate s (id, g))) 200,
   mkSession
     (mkStore (publishers (stored s)) (categories (stored s)) (view s))
     (view s) []
     (trace s ++ [EvGet TGame (PyInt id); EvCommit; EvSelect])).
Proof.
  intros Hid Hclean.
  run. rewrite (find_row_found _ _ _ Hid). cbn [no_data is_none orb existsb].
  run. unfold session_commit. cbn [dirty log]. rewrite Hclean.
  cbn [forallb]. rewrite filter_by_id_rows. cbn [view log].
  rewrite Hid. cbn [head]. unfold log. cbn [stored view dirty trace].
  rewrite <- !app_assoc. reflexivity.
Qed.

(** C10. The rejection of an empty payload applies to [None] and to the
    empty dictionary only: it lets every other value through. So, on the
    database [db], an update of an existing game with the payload [[]]
    assigns no attribute, commits, and is answered 200 with the serialized
    game exactly as a get-by-id answers it on [db]; the tables are as they
    were. *)
Theorem update_game_list_payload_noop {MD : Models}
    (db : Store) (id : Z) (g : Game) :
  (forall data, data <> PyNone -> (forall d, data <> PyDict d) ->
                no_data data = false) /\
  (games db !! id = Some g ->
   exists s',
     update_game id (Json (PyList [])) (open_session db) = 
     (mkResponse (to_dict (hydrate (open_session db) (id, g))) 200, s') /\
     fst (update_game id (Json (PyList [])) (open_session db)) =
       fst (get_game id (open_session db)) /\
     stored s' = db /\ view s' = games db /\ dirty s' = [] /\
     trace s' = [EvGet TGame (PyInt id); EvCommit; EvSelect]).
Proof.
  split.
  - intros data Hnone Hdict. destruct data; try reflexivity.
    + contradiction.
    + exfalso. apply (Hdict d). reflexivity.
  - intros Hid.
    pose proof (update_game_empty_list_clean_session id g (open_session db)
                  Hid eq_refl) as Hupd.
    eexists. split; [exact Hupd|]. split.
    + rewrite Hupd, (get_game_present id g (open_session db) Hid).
      reflexivity.
    + destruct db; repeat split.
Qed.

(** [PUT /api/games/1] with the body [[]] in the example. *)
Lemma update_game_list_payload_noop_witness :
  exists s',
    update_game (MD := demo_models) 1 (Json (PyList []))
      (open_session demo_db) =
    (mkResponse (to_dict (hydrate (open_session demo_db) (1, demo_game)))
       200, s') /\
    fst (update_game 1 (Json (PyList [])) (open_session demo_db)) =
      fst (get_game 1 (open_session demo_db)) /\
    stored s' = demo_db /\ view s' = games demo_db /\ dirty s' = [] /\
    trace s' = [EvGet TGame (PyInt 1); EvCommit; EvSelect].
Proof.
  apply (proj2 (update_game_list_payload_noop (MD := demo_models)
                  demo_db 1 demo_game)).
  reflexivity.
Defined.

(** An update, on a session with nothing pending, whose payload changes
    the title to one the table accepts and names a publisher the lookup
    does not find: the title is assigned, then the handler returns 404; the
    assignment is still pending and nothing was rolled back. *)
Lemma update_game_unknown_publisher {MD : Models}
    (id : Z) (g : Game) (d : gmap pystr pyval) (t t' pid : pyval)
    (s : Session) :
  view s !! id = Some g ->
  d !! lit "title" = Some t -> Game_validates GTitle t = Ok t' ->
  d !! lit "description" = None -> d !! lit "star_rating" = None ->
  d !! lit "publisher_id" = Some pid ->
  dirty s = [] -> Game_storable (Game_store g GTitle t') = true ->
  find_row (publishers (stored s)) pid = Ok None ->
  update_game id (Json (PyDict d)) s =
  (jsonify_error (lit "Publisher not found") 404,
   mkSession (stored s)
     (alter (fun g0 => Game_store g0 GTitle t') id (view s))
     [id]
     (trace s ++ [EvGet TGame (PyInt id); EvGet TPublisher pid])).
Proof.
  intros Hid Ht Hval Hdesc Hstar Hpid Hclean Hstor Hpub.
  assert (Hne : d <> ∅) by (eapply present_nonempty; eassumption).
  run. rewrite (find_row_found _ _ _ Hid).
  rewrite no_data_dict, bool_decide_eq_false_2 by assumption.
  rewrite Ht, Hval, Hdesc, Hstar, Hpid.
  unfold writable. cbn [stored log view dirty trace]. rewrite Hclean.
  cbn [forallb]. rewrite lookup_alter_eq, Hid.
  cbn [fmap option_fmap option_map]. rewrite Hstor. cbn [andb].
  cbv beta iota zeta. cbn [stored log view dirty trace].
  rewrite Hpub. unfold log. cbn [stored log view dirty trace].
  rewrite <- app_assoc. reflexivity.
Qed.

(** The same update when the hook of the title raises a [ValueError]: the
    [except] clause rolls the session back before it answers 400. *)
Lemma update_game_invalid_title_rolls_back {MD : Models}
    (id : Z) (g : Game) (d : gmap pystr pyval) (t : pyval) (msg : pystr)
    (s : Session) :
  view s !! id = Some g ->
  d !! lit "title" = Some t ->
  Game_validates GTitle t = Raise (ValueError msg) ->
  update_game id (Json (PyDict d)) s =
  (jsonify_error msg 400,
   session_rollback (log (EvGet TGame (PyInt id)) s)).
Proof.
  intros Hid Ht Hval.
  assert (Hne : d <> ∅) by (eapply present_nonempty; eassumption).
  run. rewrite (find_row_found _ _ _ Hid).
  rewrite no_data_dict, bool_decide_eq_false_2 by assumption.
  rewrite Ht, Hval. reflexivity.
Qed.

(** C1, on the example: [PUT /api/games/1] with the payload
    [{"title": "New title", "publisher_id": 999}], where game 1 exists and
    publisher 999 does not, is answered 404 "Publisher not found"; the
    handler asked the session for the two lookups only, so there was no
    rollback, and the session still sees the new title on game 1 while the
    committed table has the old one. *)
Theorem update_unknown_publisher_skips_rollback :
  exists s',
    update_game (MD := demo_models) 1 (Json demo_update_payload)
      demo_session =
    (jsonify_error (lit "Publisher not found") 404, s') /\
    trace s' = [EvGet TGame (PyInt 1); EvGet TPublisher (PyInt 999)] /\
    ~ In EvRollback (trace s') /\
    dirty s' = [1] /\
    game_title <$> view s' !! 1 = Some (PyStr (lit "New title")) /\
    game_title <$> games (stored s') !! 1 = Some (PyStr (lit "Old title")) /\
    view s' <> games (stored s').
Proof.
  eexists. split.
  - apply (update_game_unknown_publisher (MD := demo_models) 1 demo_game
             _ (PyStr (lit "New title")) (PyStr (lit "New title"))
             (PyInt 999) demo_session); reflexivity.
  - split; [reflexivity|]. split.
    { cbn [trace app]. intros [Hin | [Hin | []]]; discriminate. }
    split; [reflexivity|]. split; [reflexivity|]. split; [reflexivity|].
    intros Heq.
    assert (Hk : game_title <$>
                   (alter (fun g0 => Game_store g0 GTitle
                                       (PyStr (lit "New title"))) 1
                      (view demo_session)) !! 1 =
                 game_title <$> games (stored demo_session) !! 1).
    { cbn [view stored] in Heq. rewrite Heq. reflexivity. }
    vm_compute in Hk. discriminate.
Qed.

(* ===================================================================== *)
(** * Further properties of the string validator *)
(* ===================================================================== *)

Lemma lstrip_app_space (ws x : pystr) :
  forallb isspace ws = true -> lstrip (ws ++ x) = lstrip x.
Proof.
  induction ws as [|c ws IH]; simpl; [reflexivity|].
  intros Hs. apply andb_prop in Hs as [Hc Hws].
  rewrite Hc. apply IH, Hws.
Qed.

Lemma lstrip_nil_all_space (s : pystr) :
  lstrip s = [] -> forallb isspace s = true.
Proof.
  induction s as [|c s IH]; simpl; [reflexivity|].
  destruct (isspace c); [exact IH | discriminate].
Qed.

Lemma lstrip_app_nonspace (s t : pystr) :
  lstrip s <> [] -> lstrip (s ++ t) = lstrip s ++ t.
Proof.
  induction s as [|c s IH]; simpl; [congruence|].
  destruct (isspace c); [exact IH | reflexivity].
Qed.

Lemma forallb_isspace_rev (ws : pystr) :
  forallb isspace ws = true -> forallb isspace (rev ws) = true.
Proof.
  intros Hs. apply forallb_forall. intros c Hc.
  apply in_rev in Hc. revert c Hc. apply forallb_forall, Hs.
Qed.

Lemma rstrip_app_space (x ws : pystr) :
  forallb isspace ws = true -> rstrip (x ++ ws) = rstrip x.
Proof.
  intros Hs. unfold rstrip. rewrite rev_app_distr.
  rewrite lstrip_app_space by (apply forallb_isspace_rev, Hs).
  reflexivity.
Qed.

Lemma strip_padding (ws1 s ws2 : pystr) :
  forallb isspace ws1 = true -> forallb isspace ws2 = true ->
  strip (ws1 ++ s ++ ws2) = strip s.
Proof.
  intros H1 H2. unfold strip. rewrite lstrip_app_space by exact H1.
  destruct (lstrip s) as [|c r] eqn:Hs.
  - assert (Hall : forallb isspace (s ++ ws2) = true).
    { rewrite forallb_app, (lstrip_nil_all_space s Hs), H2. reflexivity. }
    rewrite (lstrip_all_space _ Hall). reflexivity.
  - rewrite lstrip_app_nonspace by (rewrite Hs; discriminate).
    rewrite Hs. apply rstrip_app_space, H2.
Qed.

(** X1. The validator accepts a value exactly when it is [None] with
    absence allowed or a string whose trimmed length reaches the minimum;
    it then returns that value. Otherwise it raises a [ValueError] whose
    message starts with the field name: no other exception leaves it. *)
Theorem validate_string_length_accepts_iff
    (field : pystr) (value : pyval) (min : Z) (allow_none : bool) :
  (forall v,
     validate_string_length field value min allow_none = Ok v <->
     v = value /\
     ((value = PyNone /\ allow_none = true) \/
      exists s, value = PyStr s /\ min <= pylen (strip s))) /\
  (forall e,
     validate_string_length field value min allow_none = Raise e ->
     exists rest, e = ValueError (field ++ rest)).
Proof.
  split.
  - intros v. unfold validate_string_length. split.
    + destruct value; simpl; try discriminate.
      * destruct allow_none; [|discriminate].
        intros [= <-]. auto.
      * destruct (Z.ltb_spec (pylen (strip s)) min); [discriminate|].
        intros [= <-]. split; [reflexivity|]. right. eauto.
    + intros [-> [[-> ->] | (s & -> & Hlen)]]; [reflexivity|].
      simpl. apply Z.ltb_ge in Hlen. rewrite Hlen. reflexivity.
  - intros e. unfold validate_string_length.
    destruct value; simpl;
      try (intros [= <-]; eexists; reflexivity).
    + destruct allow_none; [discriminate|].
      intros [= <-]. eexists; reflexivity.
    + destruct (pylen (strip s) <? min); [|discriminate].
      intros [= <-]. eexists; reflexivity.
Qed.

(** [" ab "] is accepted with minimum 2 and comes back as it is. *)
Lemma validate_string_length_accepts_iff_witness :
  validate_string_length (lit "Category name") (PyStr (lit " ab ")) 2 false
  = Ok (PyStr (lit " ab ")) /\
  exists rest,
    ValueError (lit "Category name must be a string")
    = ValueError (lit "Category name" ++ rest).
Proof.
  split.
  - apply (proj1 (validate_string_length_accepts_iff (lit "Category name")
                    (PyStr (lit " ab ")) 2 false)).
    split; [reflexivity|]. right. exists (lit " ab "). split.
    + reflexivity.
    + vm_compute. discriminate.
  - apply (proj2 (validate_string_length_accepts_iff (lit "Category name")
                    (PyInt 3) 2 false)).
    reflexivity.
Defined.

(** X2. White space around a string does not change the verdict of the
    validator: a string padded with white space on both sides is accepted
    exactly when the string is, and is refused with the same error. *)
Theorem validate_string_length_ignores_padding
    (field ws1 s ws2 : pystr) (min : Z) (allow_none : bool) :
  forallb isspace ws1 = true -> forallb isspace ws2 = true ->
  (validate_string_length field (PyStr (ws1 ++ s ++ ws2)) min allow_none
     = Ok (PyStr (ws1 ++ s ++ ws2)) /\
   validate_string_length field (PyStr s) min allow_none = Ok (PyStr s)) \/
  (exists e,
     validate_string_length field (PyStr (ws1 ++ s ++ ws2)) min allow_none
       = Raise e /\
     validate_string_length field (PyStr s) min allow_none = Raise e).
Proof.
  intros H1 H2. rewrite !validate_string_length_str.
  rewrite (strip_padding ws1 s ws2 H1 H2).
  destruct (pylen (strip s) <? min); [right; eauto | left; auto].
Qed.

(** ["\t ab \n"] and ["ab"] are both accepted with minimum 2. *)
Lemma validate_string_length_ignores_padding_witness :
  (validate_string_length (lit "Category name")
     (PyStr ([9; 32]%N ++ lit "ab" ++ [32; 10]%N)) 2 false
     = Ok (PyStr ([9; 32]%N ++ lit "ab" ++ [32; 10]%N)) /\
   validate_string_length (lit "Category name") (PyStr (lit "ab")) 2 false
     = Ok (PyStr (lit "ab"))) \/
  (exists e,
     validate_string_length (lit "Category name")
       (PyStr ([9; 32]%N ++ lit "ab" ++ [32; 10]%N)) 2 false = Raise e /\
     validate_string_length (lit "Category name") (PyStr (lit "ab")) 2 false
       = Raise e).
Proof.
  apply (validate_string_length_ignores_padding (lit "Category name")
           [9; 32]%N (lit "ab") [32; 10]%N 2 false).
  - reflexivity.
  - reflexivity.
Defined.

(** X3. Lowering the minimum never turns an accepted value into a refused
    one, and with a minimum of 0 or less every string is accepted, the
    empty string included. *)
Theorem validate_string_length_monotone
    (field : pystr) (value : pyval) (min min' : Z) (allow_none : bool) :
  (min' <= min ->
   validate_string_length field value min allow_none = Ok value ->
   validate_string_length field value min' allow_none = Ok value) /\
  (min <= 0 ->
   forall s, validate_string_length field (PyStr s) min allow_none
             = Ok (PyStr s)).
Proof.
  split.
  - intros Hle. unfold validate_string_length.
    destruct value; simpl; try discriminate; [auto|].
    destruct (Z.ltb_spec (pylen (strip s)) min); [discriminate|].
    intros _. destruct (Z.ltb_spec (pylen (strip s)) min'); [lia|].
    reflexivity.
  - intros Hmin s. rewrite validate_string_length_str.
    destruct (Z.ltb_spec (pylen (strip s)) min); [|reflexivity].
    unfold pylen in *. lia.
Qed.

(** A description accepted with minimum 10 is accepted with minimum 2, and
    the empty string is accepted with minimum 0. *)
Lemma validate_string_length_monotone_witness :
  validate_string_length (lit "Description")
    (PyStr (lit "A long description")) 2 true
  = Ok (PyStr (lit "A long description")) /\
  validate_string_length (lit "Description") (PyStr []) 0 true
  = Ok (PyStr []).
Proof.
  split.
  - apply (proj1 (validate_string_length_monotone (lit "Description")
                    (PyStr (lit "A long description")) 10 2 true)).
    + vm_compute. discriminate.
    + reflexivity.
  - apply (proj2 (validate_string_length_monotone (lit "Description")
                    PyNone 0 0 true)).
    vm_compute. discriminate.
Defined.

(* ===================================================================== *)
(** * Further properties of Category *)
(* ===================================================================== *)

Lemma Category_setattr_ok (self : Category) (a : cat_attr) (v : pyval) :
  kwarg_ok (a, v) = true ->
  Category_setattr self a v =
  Ok match a with
     | CId => with_id self v
     | CName => with_name self v
     | CDescription => with_description self v
     end.
Proof.
  unfold kwarg_ok. cbn [fst snd].
  destruct a; intros Hok; [reflexivity| |].
  - destruct v; try discriminate.
    rewrite Category_setattr_name, validate_string_length_str.
    cbn [name_ok] in Hok. apply Z.leb_le, Z.ltb_ge in Hok.
    rewrite Hok. reflexivity.
  - destruct v; try discriminate; [reflexivity|].
    rewrite Category_setattr_description, validate_string_length_str.
    cbn [description_ok] in Hok. apply Z.leb_le, Z.ltb_ge in Hok.
    rewrite Hok. reflexivity.
Qed.

Lemma Category_setattr_not_ok (self : Category) (a : cat_attr) (v : pyval) :
  kwarg_ok (a, v) = false ->
  exists msg, Category_setattr self a v = Raise (ValueError msg).
Proof.
  unfold kwarg_ok. cbn [fst snd].
  destruct a; intros Hok; [discriminate| |].
  - rewrite Category_setattr_name.
    destruct v; try (eexists; reflexivity).
    rewrite validate_string_length_str.
    cbn [name_ok] in Hok. apply Z.leb_gt, Z.ltb_lt in Hok. rewrite Hok.
    eexists; reflexivity.
  - rewrite Category_setattr_description.
    destruct v; try discriminate; try (eexists; reflexivity).
    rewrite validate_string_length_str.
    cbn [description_ok] in Hok. apply Z.leb_gt, Z.ltb_lt in Hok.
    rewrite Hok. eexists; reflexivity.
Qed.

Lemma Category_setattr_valid (self c : Category) (a : cat_attr) (v : pyval) :
  Category_valid self = true ->
  Category_setattr self a v = Ok c ->
  Category_valid c = true /\ cat_games c = cat_games self.
Proof.
  intros Hvalid Hset.
  destruct (kwarg_ok (a, v)) eqn:Hok.
  - rewrite (Category_setattr_ok self a v Hok) in Hset.
    injection Hset as <-. unfold Category_valid, kwarg_ok in *.
    apply andb_prop in Hvalid as [Hn Hd].
    destruct a; cbn [fst snd] in Hok; simpl in *.
    + rewrite Hn, Hd. auto.
    + rewrite Hok, Hd, orb_true_r. auto.
    + rewrite Hok, Hn. auto.
  - destruct (Category_setattr_not_ok self a v Hok) as [msg Hmsg].
    congruence.
Qed.

Lemma Category_setattr_error_any_object
    (self self' : Category) (a : cat_attr) (v : pyval) (e : exn) :
  Category_setattr self a v = Raise e ->
  Category_setattr self' a v = Raise e.
Proof.
  destruct a.
  - discriminate.
  - rewrite !Category_setattr_name.
    destruct (validate_string_length _ _ _ _); [discriminate | auto].
  - rewrite !Category_setattr_description.
    destruct (validate_string_length _ _ _ _); [discriminate | auto].
Qed.

Lemma Category_init_from_valid (kwargs : list (cat_attr * pyval)) :
  forall self c,
    Category_valid self = true ->
    Category_init_from self kwargs = Ok c ->
    Category_valid c = true /\ cat_games c = cat_games self.
Proof.
  induction kwargs as [|[a v] rest IH]; intros self c Hvalid; simpl.
  - intros [= <-]. auto.
  - destruct (Category_setattr self a v) as [c1|e] eqn:Hset; [|discriminate].
    simpl. intros Hrest.
    destruct (Category_setattr_valid self c1 a v Hvalid Hset) as [Hv1 Hg1].
    destruct (IH c1 c Hv1 Hrest) as [Hc Hg].
    split; [exact Hc | congruence].
Qed.

(** X4. Construction and assignment keep the columns of a category within
    the constraints of the hooks: an object built by the constructor, or
    reached from a valid object by an assignment that did not raise, has a
    name that is unset or of at least 2 trimmed characters and a
    description that is [None] or of at least 10 trimmed characters, and
    its collection of games is untouched. *)
Theorem Category_stays_valid
    (kwargs : list (cat_attr * pyval)) (self c : Category)
    (a : cat_attr) (v : pyval) :
  (Category_init kwargs = Ok c ->
   Category_valid c = true /\ cat_games c = Some []) /\
  (Category_valid self = true -> Category_setattr self a v = Ok c ->
   Category_valid c = true /\ cat_games c = cat_games self).
Proof.
  split.
  - intros Hinit.
    apply (Category_init_from_valid kwargs Category_blank c);
      [reflexivity | exact Hinit].
  - apply Category_setattr_valid.
Qed.

(** A category built with a name and then given a description. *)
Lemma Category_stays_valid_witness :
  (Category_valid (mkCategory PyNone (PyStr (lit "RPG")) PyNone (Some []))
   = true /\
   cat_games (mkCategory PyNone (PyStr (lit "RPG")) PyNone (Some []))
   = Some []) /\
  (Category_valid (mkCategory PyNone (PyStr (lit "RPG"))
                     (PyStr (lit "Role playing")) (Some [])) = true /\
   cat_games (mkCategory PyNone (PyStr (lit "RPG"))
                (PyStr (lit "Role playing")) (Some []))
   = cat_games (mkCategory PyNone (PyStr (lit "RPG")) PyNone (Some []))).
Proof.
  split.
  - apply (proj1 (Category_stays_valid [(CName, PyStr (lit "RPG"))]
                    Category_blank
                    (mkCategory PyNone (PyStr (lit "RPG")) PyNone (Some []))
                    CId PyNone)).
    reflexivity.
  - apply (proj2 (Category_stays_valid []
                    (mkCategory PyNone (PyStr (lit "RPG")) PyNone (Some []))
                    (mkCategory PyNone (PyStr (lit "RPG"))
                       (PyStr (lit "Role playing")) (Some []))
                    CDescription (PyStr (lit "Role playing")))).
    + reflexivity.
    + reflexivity.
Defined.

Lemma Category_to_dict_lookup (c : Category) (key : pystr) :
  Category_to_dict c !! key =
  if decide (lit "id" = key) then Some (cat_id c)
  else if decide (lit "name" = key) then Some (cat_name c)
  else if decide (lit "description" = key) then Some (cat_description c)
  else if decide (lit "game_count" = key) then Some (PyInt (game_count c))
  else None.
Proof.
  unfold Category_to_dict. cbn [list_to_map foldr uncurry fst snd].
  rewrite !lookup_insert, lookup_empty. reflexivity.
Qed.

(** X5. What [to_dict()] reports after an assignment that did not raise:
    the assigned attribute reads the assigned value, untrimmed, and the
    other three entries are as before. *)
Theorem Category_setattr_to_dict
    (self c : Category) (a : cat_attr) (v : pyval) :
  Category_setattr self a v = Ok c ->
  let key := match a with
             | CId => lit "id"
             | CName => lit "name"
             | CDescription => lit "description"
             end in
  Category_to_dict c !! key = Some v /\
  (forall other, other <> key ->
     Category_to_dict c !! other = Category_to_dict self !! other).
Proof.
  intros Hset.
  assert (Hc : c = match a with
                   | CId => with_id self v
                   | CName => with_name self v
                   | CDescription => with_description self v
                   end).
  { destruct (kwarg_ok (a, v)) eqn:Hok.
    - rewrite (Category_setattr_ok self a v Hok) in Hset. congruence.
    - destruct (Category_setattr_not_ok self a v Hok) as [msg Hmsg].
      congruence. }
  subst c. split.
  - rewrite Category_to_dict_lookup. destruct a; reflexivity.
  - intros other Hother. rewrite !Category_to_dict_lookup.
    destruct a; repeat case_decide; try reflexivity; congruence.
Qed.

(** Assigning the name [" RPG "]: [to_dict()] reports it with its
    spaces. *)
Lemma Category_setattr_to_dict_witness :
  Category_to_dict (with_name Category_blank (PyStr (lit " RPG ")))
    !! lit "name" = Some (PyStr (lit " RPG ")) /\
  (forall other, other <> lit "name" ->
     Category_to_dict (with_name Category_blank (PyStr (lit " RPG ")))
       !! other = Category_to_dict Category_blank !! other).
Proof.
  apply (Category_setattr_to_dict Category_blank
           (with_name Category_blank (PyStr (lit " RPG ")))
           CName (PyStr (lit " RPG "))).
  reflexivity.
Defined.

(* ===================================================================== *)
(** * Further properties of the read handlers *)
(* ===================================================================== *)

(** X6. The list handler always answers 200 with one entry for each game
    the session sees, and the entry of a game is the body get-by-id answers
    for its id; on an empty table the list is empty. The session is only
    asked to run the query. *)
Theorem get_games_lists_every_game {MD : Models} (s : Session) :
  status (fst (get_games s)) = 200 /\
  body (fst (get_games s)) =
    PyList (List.map (fun kg => body (fst (get_game (fst kg) s)))
              (map_to_list (view s))) /\
  (forall entries, body (fst (get_games s)) = PyList entries ->
                   length entries = size (view s)) /\
  (view s = ∅ -> body (fst (get_games s)) = PyList []) /\
  snd (get_games s) = log EvSelect s.
Proof.
  assert (Hbody : body (fst (get_games s)) =
            PyList (List.map (fun kg => body (fst (get_game (fst kg) s)))
                      (map_to_list (view s)))).
  { change (body (fst (get_games s)))
      with (PyList (List.map to_dict (get_games_base_query s))).
    rewrite get_games_base_query_rows, List.map_map. f_equal.
    apply map_ext_in. intros [k g] Hin.
    apply list_elem_of_In, elem_of_map_to_list in Hin.
    cbn [fst]. rewrite (get_game_present k g s Hin). reflexivity. }
  split; [reflexivity|]. split; [exact Hbody|]. split; [|split].
  - intros entries Hentries. rewrite Hbody in Hentries.
    injection Hentries as <-. rewrite length_map.
    apply length_map_to_list.
  - intros Hempty. rewrite Hbody, Hempty, map_to_list_empty. reflexivity.
  - reflexivity.
Qed.

(** The example has one game: the list has one entry. *)
Lemma get_games_lists_every_game_witness :
  length [ to_dict (hydrate demo_session (1, demo_game)) ]
  = size (view demo_session) /\
  body (fst (get_games (open_session
                          (mkStore (MD := demo_models) ∅ ∅ ∅))))
  = PyList [].
Proof.
  split.
  - apply (proj1 (proj2 (proj2 (get_games_lists_every_game
                                  (MD := demo_models) demo_session)))).
    reflexivity.
  - apply (proj1 (proj2 (proj2 (proj2
             (get_games_lists_every_game (MD := demo_models)
                (open_session (mkStore (MD := demo_models) ∅ ∅ ∅))))))).
    reflexivity.
Defined.

(** X7. Get-by-id, on a session with nothing pending, answers 200 exactly
    when the session sees a game with the id. For an id of 64 bits it
    answers 404 "Game not found" exactly when the session sees none; for an
    id beyond 64 bits, which no game has, the query raises and, the handler
    having no [try], the framework answers 500. In every case it leaves the
    committed tables and the session's view as they were and nothing
    pending, so asking again, for any id, gives the answer it would have
    given before. *)
Theorem get_game_reads_only {MD : Models} (id : Z) (s : Session) :
  dirty s = [] ->
  (is_Some (view s !! id) <-> status (fst (get_game id s)) = 200) /\
  (int64 id = true ->
   (view s !! id = None <->
    fst (get_game id s) = jsonify_error (lit "Game not found") 404)) /\
  (int64 id = false -> view s !! id = None ->
   fst (get_game id s) = mkResponse unhandled_body 500) /\
  stored (snd (get_game id s)) = stored s /\
  view (snd (get_game id s)) = view s /\
  dirty (snd (get_game id s)) = [] /\
  (forall id', fst (get_game id' (snd (get_game id s)))
               = fst (get_game id' s)) /\
  fst (get_games (snd (get_game id s))) = fst (get_games s).
Proof.
  intros Hclean.
  assert (Hsnd : snd (get_game id s) = log EvSelect s).
  { destruct (view s !! id) as [g|] eqn:Hid.
    - rewrite (get_game_present id g s Hid). reflexivity.
    - rewrite (get_game_absent id s Hid). reflexivity. }
  assert (Hagain : forall id' s0,
            fst (get_game id' (log EvSelect s0)) = fst (get_game id' s0)).
  { intros id' s0. destruct (view s0 !! id') as [g'|] eqn:Hid'.
    - rewrite (get_game_present id' g' s0 Hid').
      rewrite (get_game_present id' g' (log EvSelect s0) Hid'). reflexivity.
    - rewrite (get_game_absent id' s0 Hid').
      rewrite (get_game_absent id' (log EvSelect s0) Hid'). reflexivity. }
  rewrite Hsnd.
  split; [|split; [|split]].
  - destruct (view s !! id) as [g|] eqn:Hid.
    + rewrite (get_game_present id g s Hid). cbn [fst status].
      split; [reflexivity | eauto].
    + rewrite (get_game_absent id s Hid). cbn [fst].
      split; [intros [? ?]; discriminate|].
      destruct (int64 id); cbn [status jsonify_error]; discriminate.
  - intros Hint. destruct (view s !! id) as [g|] eqn:Hid.
    + rewrite (get_game_present id g s Hid). cbn [fst].
      split; [discriminate | intros Heq; discriminate].
    + rewrite (get_game_absent_int64 id s Hid Hint). cbn [fst].
      split; reflexivity.
  - intros Hint Hid. rewrite (get_game_absent id s Hid), Hint. reflexivity.
  - do 2 (split; [reflexivity|]). split; [exact Hclean|].
    split; [intros id'; apply Hagain | reflexivity].
Qed.

(** In the example: game 1 exists, game 5 does not, and no game has the
    id 2^64. *)
Lemma get_game_reads_only_witness :
  status (fst (get_game (MD := demo_models) 1 demo_session)) = 200 /\
  fst (get_game (MD := demo_models) 5 demo_session)
  = jsonify_error (lit "Game not found") 404 /\
  fst (get_game (MD := demo_models) (2 ^ 64) demo_session)
  = mkResponse (unhandled_body (Models := demo_models)) 500.
Proof.
  split; [|split].
  - apply (proj1 (proj1 (get_game_reads_only (MD := demo_models)
                           1 demo_session eq_refl))).
    exists demo_game. reflexivity.
  - apply (proj1 (proj1 (proj2 (get_game_reads_only (MD := demo_models)
                                  5 demo_session eq_refl)) eq_refl)).
    reflexivity.
  - apply (proj1 (proj2 (proj2 (get_game_reads_only (MD := demo_models)
                                  (2 ^ 64) demo_session eq_refl)))).
    + reflexivity.
    + reflexivity.
Defined.

(* ===================================================================== *)
(** * Further properties of create *)
(* ===================================================================== *)

(** The statements of create up to the construction of the game, on a
    payload with the four required fields and both references found. *)
Lemma create_game_reaches_constructor {MD : Models}
    (d : gmap pystr pyval) (t ds pid cid : pyval)
    (p : Publisher) (c : Category) (s : Session) :
  d !! lit "title" = Some t -> d !! lit "description" = Some ds ->
  d !! lit "publisher_id" = Some pid -> d !! lit "category_id" = Some cid ->
  Forall (fun field => missing d field = false) required_fields ->
  find_row (publishers (stored s)) pid = Ok (Some p) ->
  find_row (categories (stored s)) cid = Ok (Some c) ->
  create_game (Json (PyDict d)) s =
  try_except_ValueError_Exception
    (bind (lift (Game_init t ds pid cid (default PyNone
                                           (d !! lit "star_rating"))))
       (fun new_game =>
        bind (session_add new_game) (fun new_id =>
        bind session_commit (fun _ =>
        bind (first_by_id new_id)
          (fun created_game =>
             match created_game with
             | None => raise AttributeError
             | Some row => return_ (mkResponse (to_dict row) 201)
             end)))))
    (log (EvGet TCategory cid) (log (EvGet TPublisher pid) s)).
Proof.
  intros Ht Hds Hpid Hcid Hall Hpub Hcat.
  assert (Hne : d <> ∅) by (eapply present_nonempty; eassumption).
  run. rewrite no_data_dict, bool_decide_eq_false_2 by assumption.
  rewrite check_required_dict, (find_all_false _ _ Hall).
  rewrite Hpid, Hpub, Hcid.
  change (stored (log (EvGet TPublisher pid) s)) with (stored s).
  rewrite Hcat, Ht, Hds. reflexivity.
Qed.

(** Create on a payload that passes every check. *)
Lemma create_game_success {MD : Models}
    (d : gmap pystr pyval) (t ds pid cid : pyval)
    (p : Publisher) (c : Category) (g : Game) (s : Session) :
  d !! lit "title" = Some t -> d !! lit "description" = Some ds ->
  d !! lit "publisher_id" = Some pid -> d !! lit "category_id" = Some cid ->
  Forall (fun field => missing d field = false) required_fields ->
  find_row (publishers (stored s)) pid = Ok (Some p) ->
  find_row (categories (stored s)) cid = Ok (Some c) ->
  Game_init t ds pid cid (default PyNone (d !! lit "star_rating")) = Ok g ->
  Game_storable g = true ->
  dirty s = [] ->
  exists s',
    create_game (Json (PyDict d)) s =
    (mkResponse (to_dict (hydrate s (next_game_id (view s), g))) 201, s') /\
    games (stored s') = <[next_game_id (view s) := g]> (view s) /\
    publishers (stored s') = publishers (stored s) /\
    categories (stored s') = categories (stored s) /\
    view s' = games (stored s') /\ dirty s' = [] /\
    trace s' = trace s ++ [EvGet TPublisher pid; EvGet TCategory cid;
                           EvAdd (next_game_id (view s)); EvCommit;
                           EvSelect] /\
    get_game (next_game_id (view s)) s' =
    (mkResponse (to_dict (hydrate s (next_game_id (view s), g))) 200,
     log EvSelect s').
Proof.
  intros Ht Hds Hpid Hcid Hall Hpub Hcat Hinit Hstor Hclean.
  eexists. split.
  - rewrite (create_game_reaches_constructor d t ds pid cid p c s)
      by assumption.
    run. rewrite Hinit.
    unfold session_add, session_commit, writable.
    cbn [dirty log view stored trace]. rewrite Hclean.
    cbn [forallb]. rewrite lookup_insert_eq, Hstor. cbn [andb].
    rewrite filter_by_id_rows. cbn [view log].
    rewrite lookup_insert_eq. cbn [head]. reflexivity.
  - cbn [stored games publishers categories view dirty trace log].
    repeat split.
    + rewrite <- !app_assoc. reflexivity.
    + erewrite get_game_present; [reflexivity|].
      cbn [view log]. apply lookup_insert_eq.
Qed.

(** X8. Create, on a session with nothing pending and a payload whose four
    required fields are present, whose references are found, whose values
    the hooks of [Game] accept and whose row the table accepts: the game is
    inserted under the key the database assigns, committed, and answered
    201 with its row of the composed query; [star_rating] is the payload's
    or, when the payload has none, [None]; a get-by-id for the new key on
    the resulting session answers 200 with the same body. *)
Theorem create_game_round_trip {MD : Models}
    (d : gmap pystr pyval) (t ds pid cid : pyval)
    (p : Publisher) (c : Category) (g : Game) (s : Session) :
  d !! lit "title" = Some t -> d !! lit "description" = Some ds ->
  d !! lit "publisher_id" = Some pid -> d !! lit "category_id" = Some cid ->
  Forall (fun field => missing d field = false) required_fields ->
  find_row (publishers (stored s)) pid = Ok (Some p) ->
  find_row (categories (stored s)) cid = Ok (Some c) ->
  Game_init t ds pid cid (default PyNone (d !! lit "star_rating")) = Ok g ->
  Game_storable g = true ->
  dirty s = [] ->
  exists s',
    create_game (Json (PyDict d)) s =
    (mkResponse (to_dict (hydrate s (next_game_id (view s), g))) 201, s') /\
    games (stored s') = <[next_game_id (view s) := g]> (view s) /\
    publishers (stored s') = publishers (stored s) /\
    categories (stored s') = categories (stored s) /\
    view s' = games (stored s') /\ dirty s' = [] /\
    trace s' = trace s ++ [EvGet TPublisher pid; EvGet TCategory cid;
                           EvAdd (next_game_id (view s)); EvCommit;
                           EvSelect] /\
    get_game (next_game_id (view s)) s' =
    (mkResponse (to_dict (hydrate s (next_game_id (view s), g))) 200,
     log EvSelect s').
Proof. apply create_game_success. Qed.

(** Creating a game in the example: it gets the key 2. *)
Lemma create_game_round_trip_witness :
  exists s',
    create_game (MD := demo_models) (Json (PyDict (demo_full_payload 1 1)))
      demo_session =
    (mkResponse
       (to_dict (hydrate demo_session
                   (demo_new_id,
                    mkGame (PyStr (lit "T")) (PyStr (lit "D")) PyNone
                      (PyInt 1) (PyInt 1)))) 201, s') /\
    games (stored s') =
      <[demo_new_id :=
          mkGame (PyStr (lit "T")) (PyStr (lit "D")) PyNone
            (PyInt 1) (PyInt 1)]> (view demo_session) /\
    publishers (stored s') = publishers (stored demo_session) /\
    categories (stored s') = categories (stored demo_session) /\
    view s' = games (stored s') /\ dirty s' = [] /\
    trace s' =
      trace demo_session ++
      [EvGet TPublisher (PyInt 1); EvGet TCategory (PyInt 1);
       EvAdd (demo_new_id); EvCommit; EvSelect] /\
    get_game (demo_new_id) s' =
    (mkResponse
       (to_dict (hydrate demo_session
                   (demo_new_id,
                    mkGame (PyStr (lit "T")) (PyStr (lit "D")) PyNone
                      (PyInt 1) (PyInt 1)))) 200,
     log EvSelect s').
Proof.
  apply (create_game_round_trip (MD := demo_models)
           (demo_full_payload 1 1)
           (PyStr (lit "T")) (PyStr (lit "D")) (PyInt 1) (PyInt 1)
           (lit "Contoso") demo_category
           (mkGame (PyStr (lit "T")) (PyStr (lit "D")) PyNone
              (PyInt 1) (PyInt 1))
           demo_session);
    first [reflexivity | repeat constructor].
Defined.

(** X9. Create, when the constructor of [Game] raises on a payload that
    passed the checks of the handler: a [ValueError] is answered 400 with
    its message, any other exception 500 "Internal server error"; the
    session is rolled back, and nothing was added or committed. *)
Theorem create_game_constructor_error {MD : Models}
    (d : gmap pystr pyval) (t ds pid cid : pyval)
    (p : Publisher) (c : Category) (e : exn) (s : Session) :
  d !! lit "title" = Some t -> d !! lit "description" = Some ds ->
  d !! lit "publisher_id" = Some pid -> d !! lit "category_id" = Some cid ->
  Forall (fun field => missing d field = false) required_fields ->
  find_row (publishers (stored s)) pid = Ok (Some p) ->
  find_row (categories (stored s)) cid = Ok (Some c) ->
  Game_init t ds pid cid (default PyNone (d !! lit "star_rating"))
    = Raise e ->
  create_game (Json (PyDict d)) s =
  (match e with
   | ValueError msg => jsonify_error msg 400
   | _ => jsonify_error (lit "Internal server error") 500
   end,
   mkSession (stored s) (games (stored s)) []
     (trace s ++ [EvGet TPublisher pid; EvGet TCategory cid; EvRollback])).
Proof.
  intros Ht Hds Hpid Hcid Hall Hpub Hcat Hinit.
  rewrite (create_game_reaches_constructor d t ds pid cid p c s)
    by assumption.
  run. rewrite Hinit. unfold session_rollback, log.
  cbn [stored view dirty trace]. rewrite <- !app_assoc.
  destruct e; reflexivity.
Qed.

(** With a [Game] whose title needs 2 characters, the title ["T"] is
    answered 400 with the message of the hook. *)
Lemma create_game_constructor_error_witness :
  create_game (MD := strict_models) (Json (PyDict (demo_full_payload 1 1)))
    strict_session =
  (jsonify_error (lit "Game title must be at least 2 characters") 400,
   mkSession (stored strict_session) (games (stored strict_session)) []
     (trace strict_session ++
      [EvGet TPublisher (PyInt 1); EvGet TCategory (PyInt 1); EvRollback])).
Proof.
  apply (create_game_constructor_error (MD := strict_models)
           (demo_full_payload 1 1)
           (PyStr (lit "T")) (PyStr (lit "D")) (PyInt 1) (PyInt 1)
           (lit "Contoso") demo_category
           (ValueError (lit "Game title must be at least 2 characters"))
           strict_session);
    first [reflexivity | repeat constructor].
Defined.

(* ===================================================================== *)
(** * What a handler that does not succeed leaves behind *)
(* ===================================================================== *)

Section Keeps.
Context {MD : Models}.
Variable Inv : Session -> Prop.
Hypothesis Inv_log : forall e s, Inv s -> Inv (log e s).

Lemma keeps_bind {A B : Type} (m : M A) (k : A -> M B) (s : Session) :
  keeps Inv m s ->
  (forall a s', m s = Val a s' -> Inv s' -> keeps Inv (k a) s') ->
  keeps Inv (bind m k) s.
Proof.
  unfold keeps, bind. intros Hm Hk.
  destruct (m s) as [a s'| r s' | e s']; auto.
  apply (Hk a s' eq_refl Hm).
Qed.

Lemma answers_or_keeps_bind {A : Type} (code : Z)
    (m : M A) (k : A -> M Response) (s : Session) :
  keeps Inv m s ->
  (forall a s', m s = Val a s' -> Inv s' -> answers_or_keeps code Inv (k a) s') ->
  answers_or_keeps code Inv (bind m k) s.
Proof.
  unfold keeps, answers_or_keeps, bind. intros Hm Hk.
  destruct (m s) as [a s'| r s' | e s']; auto.
  apply (Hk a s' eq_refl Hm).
Qed.

Lemma keeps_lift {A : Type} (r : res A) (s : Session) :
  Inv s -> keeps Inv (lift r) s.
Proof. unfold keeps, lift. destruct r; auto. Qed.

Lemma keeps_ret {A : Type} (a : A) (s : Session) : Inv s -> keeps Inv (ret a) s.
Proof. auto. Qed.

Lemma keeps_return_if (c : bool) (r : Response) (s : Session) :
  Inv s -> keeps Inv (return_if c r) s.
Proof. unfold keeps, return_if. destruct c; auto. Qed.

Lemma keeps_autoflush (s : Session) : Inv s -> keeps Inv autoflush s.
Proof. intros Hs. unfold keeps, autoflush. destruct (forallb _ _); auto. Qed.

Lemma keeps_try_get_json (req : request_body) (s : Session) :
  Inv s -> keeps Inv (try_get_json req) s.
Proof. destruct req; auto. Qed.

Lemma keeps_query_get {A : Type} t (rows : Session -> gmap Z A) key s :
  Inv s -> keeps Inv (query_get t rows key) s.
Proof.
  intros Hs. unfold query_get. apply keeps_lift, Inv_log, Hs.
Qed.

Lemma keeps_check_required data fields s :
  Inv s -> keeps Inv (check_required data fields) s.
Proof.
  revert s. induction fields as [|field rest IH]; intros s Hs; [exact Hs|].
  cbn [check_required].
  apply keeps_bind; [apply keeps_lift, Hs|]. intros present s1 _ Hs1.
  apply keeps_bind.
  { destruct (negb present); [exact Hs1|].
    apply keeps_bind; [apply keeps_lift, Hs1|]. intros; assumption. }
  intros miss s2 _ Hs2.
  apply keeps_bind; [apply keeps_return_if, Hs2|].
  intros _ s3 _ Hs3. apply IH, Hs3.
Qed.

Lemma keeps_session_commit_fails (s : Session) :
  Inv s ->
  match session_commit s with
  | Val _ _ => True
  | Ret _ s' => Inv s'
  | Exc _ s' => Inv s'
  end.
Proof.
  intros Hs. unfold session_commit.
  destruct (forallb _ _); [constructor | apply Inv_log, Hs].
Qed.

(** The commit and what follows it, when the session sees the game the
    response is read from. *)
Lemma commit_then_refetch (key code : Z) (s : Session) :
  Inv s -> is_Some (view s !! key) ->
  answers_or_keeps code Inv
    (bind session_commit (fun _ =>
     bind (first_by_id key)
       (fun fetched_game =>
          match fetched_game with
          | None => raise AttributeError
          | Some row => return_ (mkResponse (to_dict row) code)
          end))) s.
Proof.
  intros Hs [g Hg]. unfold answers_or_keeps, bind, session_commit.
  destruct (forallb _ _); [|apply Inv_log, Hs].
  unfold first_by_id. rewrite filter_by_id_rows. cbn [view].
  rewrite Hg. cbn [head]. left. reflexivity.
Qed.

End Keeps.

Section KeepsStore.
Context {MD : Models}.
Variable db : Store.
Variable id : Z.

(** The committed tables are [db]. *)
Let committed (s : Session) : Prop := stored s = db.

(** The committed tables are [db] and the session sees the game [id]. *)
Let committed_seen (s : Session) : Prop :=
  stored s = db /\ is_Some (view s !! id).

Lemma committed_log e s : committed s -> committed (log e s).
Proof. auto. Qed.

Lemma committed_seen_log e s : committed_seen s -> committed_seen (log e s).
Proof. auto. Qed.

Lemma keeps_game_setattr a v s :
  committed_seen s -> keeps committed_seen (game_setattr id a v) s.
Proof.
  intros [Hdb Hseen]. unfold keeps, game_setattr.
  destruct (Game_validates a v); [|split; assumption].
  split; [exact Hdb|]. cbn [view]. rewrite lookup_alter_eq.
  destruct Hseen as [g ->]. eauto.
Qed.

Lemma keeps_update_field data key a s :
  committed_seen s -> keeps committed_seen (update_field id data key a) s.
Proof.
  intros Hs. unfold update_field.
  apply keeps_bind; [apply keeps_lift, Hs|]. intros present s1 _ Hs1.
  destruct present; [|exact Hs1].
  apply keeps_bind; [apply keeps_lift, Hs1|]. intros v s2 _ Hs2.
  apply keeps_game_setattr, Hs2.
Qed.

Lemma keeps_update_reference {A : Type} data key a t
    (rows : Session -> gmap Z A) msg s :
  committed_seen s ->
  keeps committed_seen (update_reference id data key a t rows msg) s.
Proof.
  intros Hs. unfold update_reference.
  apply keeps_bind; [apply keeps_lift, Hs|]. intros present s1 _ Hs1.
  destruct present; [|exact Hs1].
  apply keeps_bind; [apply keeps_lift, Hs1|]. intros k s2 _ Hs2'.
  apply keeps_bind; [apply keeps_autoflush, Hs2'|]. intros u s2' _ Hs2.
  apply keeps_bind;
    [apply keeps_query_get; solve [apply committed_seen_log | exact Hs2]|].
  intros row s3 _ Hs3. destruct row; [|exact Hs3].
  apply keeps_bind; [apply keeps_lift, Hs3|]. intros v s4 _ Hs4.
  apply keeps_game_setattr, Hs4.
Qed.

Lemma try_except_keeps (code : Z) (m : M Response) (s : Session) :
  answers_or_keeps code committed m s ->
  status (fst (try_except_ValueError_Exception m s)) <> code ->
  stored (snd (try_except_ValueError_Exception m s)) = db.
Proof.
  unfold answers_or_keeps, try_except_ValueError_Exception.
  destruct (m s) as [r s'| r s' | e s']; cbn [fst snd].
  - intros [Hc | Hdb] Hne; [contradiction | exact Hdb].
  - intros [Hc | Hdb] Hne; [contradiction | exact Hdb].
  - intros Hdb _. destruct e; exact Hdb.
Qed.

Lemma create_game_body_keeps (req : request_body) (s : Session) :
  committed s ->
  status (fst (create_game req s)) <> 201 ->
  stored (snd (create_game req s)) = db.
Proof.
  intros Hs. unfold create_game. apply try_except_keeps.
  pose proof committed_log as Hlog.
  apply answers_or_keeps_bind; [apply keeps_try_get_json, Hs|].
  intros data s1 _ Hs1.
  apply answers_or_keeps_bind; [apply keeps_return_if, Hs1|].
  intros _ s2 _ Hs2.
  apply answers_or_keeps_bind;
    [apply keeps_check_required; solve [exact Hlog | exact Hs2]|].
  intros _ s3 _ Hs3.
  apply answers_or_keeps_bind; [apply keeps_lift, Hs3|].
  intros pkey s4 _ Hs4.
  apply answers_or_keeps_bind;
    [apply keeps_query_get; solve [exact Hlog | exact Hs4]|].
  intros publisher s5 _ Hs5.
  apply answers_or_keeps_bind; [apply keeps_return_if, Hs5|].
  intros _ s6 _ Hs6.
  apply answers_or_keeps_bind; [apply keeps_lift, Hs6|].
  intros ckey s7 _ Hs7.
  apply answers_or_keeps_bind;
    [apply keeps_query_get; solve [exact Hlog | exact Hs7]|].
  intros category s8 _ Hs8.
  apply answers_or_keeps_bind; [apply keeps_return_if, Hs8|].
  intros _ s9 _ Hs9.
  apply answers_or_keeps_bind; [apply keeps_lift, Hs9|].
  intros title s10 _ Hs10.
  apply answers_or_keeps_bind; [apply keeps_lift, Hs10|].
  intros description s11 _ Hs11.
  apply answers_or_keeps_bind; [apply keeps_lift, Hs11|].
  intros publisher_id s12 _ Hs12.
  apply answers_or_keeps_bind; [apply keeps_lift, Hs12|].
  intros category_id s13 _ Hs13.
  apply answers_or_keeps_bind; [apply keeps_lift, Hs13|].
  intros star_rating s14 _ Hs14.
  apply answers_or_keeps_bind; [apply keeps_lift, Hs14|].
  intros new_game s15 _ Hs15.
  apply answers_or_keeps_bind; [exact Hs15|].
  intros new_id s16 Hadd _.
  injection Hadd as <- <-.
  apply commit_then_refetch.
  - exact Hlog.
  - exact Hs15.
  - cbn [view]. rewrite lookup_insert_eq. eauto.
Qed.

Lemma update_game_body_keeps (req : request_body) (s : Session) :
  committed s ->
  status (fst (update_game id req s)) <> 200 ->
  stored (snd (update_game id req s)) = db.
Proof.
  intros Hs. unfold update_game. apply try_except_keeps.
  pose proof committed_log as Hlog.
  pose proof committed_seen_log as Hlog'.
  apply answers_or_keeps_bind;
    [apply keeps_query_get; solve [exact Hlog | exact Hs]|].
  intros game s1 Hget Hs1.
  apply answers_or_keeps_bind; [apply keeps_return_if, Hs1|].
  intros u s2 Hpresent _.
  assert (Hs2 : committed_seen s2).
  { unfold query_get, lift, find_row, pk_of in Hget.
    destruct (view s !! id) as [g|] eqn:Hid.
    - inversion Hget; subst game s1; clear Hget.
      inversion Hpresent; subst s2.
      split; [exact Hs|]. cbn [view log]. eauto.
    - destruct (int64 id); [|discriminate].
      inversion Hget; subst game s1; clear Hget. discriminate. }
  assert (Hdown : forall (m : M Response) s0,
            answers_or_keeps 200 committed_seen m s0 ->
            answers_or_keeps 200 committed m s0).
  { unfold answers_or_keeps. intros m s0.
    destruct (m s0); unfold committed_seen; tauto. }
  apply Hdown.
  apply answers_or_keeps_bind;
    [apply keeps_try_get_json, Hs2|]. intros data s3 _ Hs3.
  apply answers_or_keeps_bind; [apply keeps_return_if, Hs3|].
  intros _ s4 _ Hs4.
  apply answers_or_keeps_bind; [apply keeps_update_field, Hs4|].
  intros _ s5 _ Hs5.
  apply answers_or_keeps_bind; [apply keeps_update_field, Hs5|].
  intros _ s6 _ Hs6.
  apply answers_or_keeps_bind; [apply keeps_update_field, Hs6|].
  intros _ s7 _ Hs7.
  apply answers_or_keeps_bind; [apply keeps_update_reference, Hs7|].
  intros _ s8 _ Hs8.
  apply answers_or_keeps_bind; [apply keeps_update_reference, Hs8|].
  intros _ s9 _ Hs9.
  apply commit_then_refetch; [exact Hlog' | exact Hs9 | exact (proj2 Hs9)].
Qed.

End KeepsStore.

Lemma create_game_status {MD : Models} (req : request_body) (s : Session) :
  status (fst (create_game req s)) = 201 \/
  status (fst (create_game req s)) = 400 \/
  status (fst (create_game req s)) = 404 \/
  status (fst (create_game req s)) = 500.
Proof.
  set (P := fun (r : Response) (s' : Session) =>
              status r = 201 \/ status r = 400 \/ status r = 404 \/
              status r = 500).
  assert (Href : forall r s', refusal r s' -> P r s').
  { intros r s' [H4 | H4]; unfold P; auto. }
  unfold create_game. apply (try_except_answers P).
  - do 15 (apply answers_bind; [early Href | intros ? ? _]).
    apply answers_bind; [early Href | intros new_id ? _].
    apply answers_bind; [early Href | intros ? ? _].
    apply (answers_weaken (fetched new_id 201)).
    { intros r sf (row & _ & -> & _). left. reflexivity. }
    apply answers_refetch.
  - intros r s' [H4 | H4]; unfold P; auto.
Qed.

Lemma update_game_status {MD : Models}
    (id : Z) (req : request_body) (s : Session) :
  status (fst (update_game id req s)) = 200 \/
  status (fst (update_game id req s)) = 400 \/
  status (fst (update_game id req s)) = 404 \/
  status (fst (update_game id req s)) = 500.
Proof.
  set (P := fun (r : Response) (s' : Session) =>
              status r = 200 \/ status r = 400 \/ status r = 404 \/
              status r = 500).
  assert (Href : forall r s', refusal r s' -> P r s').
  { intros r s' [H4 | H4]; unfold P; auto. }
  unfold update_game. apply (try_except_answers P).
  - do 10 (apply answers_bind; [early Href | intros ? ? _]).
    apply (answers_weaken (fetched id 200)).
    { intros r sf (row & _ & -> & _). left. reflexivity. }
    apply answers_refetch.
  - intros r s' [H4 | H4]; unfold P; auto.
Qed.

(** X10. Create answers 201, 400, 404 or 500 and nothing else; whenever
    the answer is not 201 the committed tables are what they were before
    the request. *)
Theorem create_game_fails_cleanly {MD : Models}
    (req : request_body) (s : Session) :
  (status (fst (create_game req s)) = 201 \/
   status (fst (create_game req s)) = 400 \/
   status (fst (create_game req s)) = 404 \/
   status (fst (create_game req s)) = 500) /\
  (status (fst (create_game req s)) <> 201 ->
   stored (snd (create_game req s)) = stored s).
Proof.
  split; [apply create_game_status|].
  apply create_game_body_keeps. reflexivity.
Qed.

(** A payload without a title in the example: 400, tables unchanged. *)
Lemma create_game_fails_cleanly_witness :
  stored (snd (create_game (MD := demo_models) (Json demo_create_payload)
                 demo_session)) = stored demo_session.
Proof.
  apply (proj2 (create_game_fails_cleanly (MD := demo_models)
                  (Json demo_create_payload) demo_session)).
  vm_compute. discriminate.
Defined.

(** X11. Update answers 200, 400, 404 or 500 and nothing else; whenever
    the answer is not 200 the committed tables are what they were before
    the request, whatever was assigned to the game in the session. *)
Theorem update_game_fails_cleanly {MD : Models}
    (id : Z) (req : request_body) (s : Session) :
  (status (fst (update_game id req s)) = 200 \/
   status (fst (update_game id req s)) = 400 \/
   status (fst (update_game id req s)) = 404 \/
   status (fst (update_game id req s)) = 500) /\
  (status (fst (update_game id req s)) <> 200 ->
   stored (snd (update_game id req s)) = stored s).
Proof.
  split; [apply update_game_status|].
  apply update_game_body_keeps. reflexivity.
Qed.

(** The update of the example that names publisher 999: 404, and the
    committed tables are unchanged. *)
Lemma update_game_fails_cleanly_witness :
  stored (snd (update_game (MD := demo_models) 1 (Json demo_update_payload)
                 demo_session)) = stored demo_session.
Proof.
  apply (proj2 (update_game_fails_cleanly (MD := demo_models) 1
                  (Json demo_update_payload) demo_session)).
  vm_compute. discriminate.
Defined.

(** X12. Delete answers 200, 404 or 500 and nothing else. A 404 leaves the
    session as it was but for the lookup; a 500 comes with a rollback: the
    session sees the committed table again, the game included, and nothing
    is pending; in both cases the committed tables are unchanged. *)
Theorem delete_game_fails_cleanly {MD : Models} (id : Z) (s : Session) :
  (status (fst (delete_game id s)) = 200 \/
   status (fst (delete_game id s)) = 404 \/
   status (fst (delete_game id s)) = 500) /\
  (status (fst (delete_game id s)) <> 200 ->
   stored (snd (delete_game id s)) = stored s) /\
  (status (fst (delete_game id s)) = 404 ->
   view s !! id = None /\
   snd (delete_game id s) = log (EvGet TGame (PyInt id)) s) /\
  (status (fst (delete_game id s)) = 500 ->
   fst (delete_game id s) = jsonify_error (lit "Internal server error") 500
   /\ view (snd (delete_game id s)) = games (stored s) /\
   dirty (snd (delete_game id s)) = [] /\
   last (trace (snd (delete_game id s))) = Some EvRollback).
Proof.
  destruct (view s !! id) as [g|] eqn:Hid.
  - run. rewrite (find_row_found _ _ _ Hid). cbn [fst snd status].
    unfold session_commit. cbv beta zeta.
    match goal with
    | |- context [forallb ?f ?l] => destruct (forallb f l)
    end; cbn [fst snd status jsonify_error jsonify_message].
    + split; [auto|]. split; [congruence|]. split; discriminate.
    + split; [auto|]. split; [reflexivity|]. split; [discriminate|].
      intros _. repeat split. cbn [trace session_rollback log].
      apply last_snoc.
  - run. rewrite (find_row_absent _ _ Hid).
    destruct (int64 id); cbn [fst snd status jsonify_error].
    + split; [auto|]. split; [reflexivity|]. split; [auto|]. discriminate.
    + split; [auto|]. split; [reflexivity|]. split; [discriminate|].
      intros _. repeat split. cbn [trace session_rollback log].
      apply last_snoc.
Qed.

(** Deleting game 5 of the example, which does not exist. *)
Lemma delete_game_fails_cleanly_witness :
  stored (snd (delete_game (MD := demo_models) 5 demo_session))
  = stored demo_session /\
  (view demo_session !! 5 = None /\
   snd (delete_game (MD := demo_models) 5 demo_session)
   = log (EvGet TGame (PyInt 5)) demo_session).
Proof.
  split.
  - apply (proj1 (proj2 (delete_game_fails_cleanly (MD := demo_models)
                           5 demo_session))).
    vm_compute. discriminate.
  - apply (proj1 (proj2 (proj2 (delete_game_fails_cleanly
                                  (MD := demo_models) 5 demo_session)))).
    reflexivity.
Defined.

(* ===================================================================== *)
(** * Further properties of update *)
(* ===================================================================== *)

(** Update for an id the session sees no game with. *)
Lemma update_game_absent {MD : Models}
    (id : Z) (req : request_body) (s : Session) :
  view s !! id = None ->
  update_game id req s =
  if int64 id
  then (jsonify_error (lit "Game not found") 404,
        log (EvGet TGame (PyInt id)) s)
  else (jsonify_error (lit "Internal server error") 500,
        session_rollback (log (EvGet TGame (PyInt id)) s)).
Proof.
  intros Hid. run. rewrite (find_row_absent _ _ Hid).
  destruct (int64 id); reflexivity.
Qed.

(** X13. Update looks the game up before it reads the payload. On a
    session with nothing pending and for an id the session sees no game
    with, whatever the body is, a body that is not JSON or is empty
    included: when the id fits in 64 bits the answer is 404 "Game not
    found" and the session was asked for that lookup only; when it does
    not, the lookup raises, the session is rolled back and the answer is
    500 "Internal server error". *)
Theorem update_game_unknown_id {MD : Models}
    (id : Z) (req : request_body) (s : Session) :
  dirty s = [] ->
  view s !! id = None ->
  (int64 id = true ->
   update_game id req s =
   (jsonify_error (lit "Game not found") 404,
    log (EvGet TGame (PyInt id)) s)) /\
  (int64 id = false ->
   update_game id req s =
   (jsonify_error (lit "Internal server error") 500,
    session_rollback (log (EvGet TGame (PyInt id)) s))).
Proof.
  intros _ Hid. rewrite (update_game_absent id req s Hid).
  split; intros ->; reflexivity.
Qed.

(** [PUT /api/games/5] with the body [{}] in the example: 404, not 400;
    [PUT /api/games/18446744073709551616] with the same body: 500. *)
Lemma update_game_unknown_id_witness :
  update_game (MD := demo_models) 5 (Json (PyDict ∅)) demo_session =
  (jsonify_error (lit "Game not found") 404,
   log (EvGet TGame (PyInt 5)) demo_session) /\
  update_game (MD := demo_models) (2 ^ 64) (Json (PyDict ∅)) demo_session =
  (jsonify_error (lit "Internal server error") 500,
   session_rollback (log (EvGet TGame (PyInt (2 ^ 64))) demo_session)).
Proof.
  split.
  - apply (proj1 (update_game_unknown_id (MD := demo_models) 5
                    (Json (PyDict ∅)) demo_session eq_refl eq_refl)).
    reflexivity.
  - apply (proj2 (update_game_unknown_id (MD := demo_models) (2 ^ 64)
                    (Json (PyDict ∅)) demo_session eq_refl eq_refl)).
    reflexivity.
Defined.

(** X14. An update whose payload passes the empty-payload check and
    contains none of the five keys the handler looks for (an object with
    other keys only, a list without these strings, a string without these
    substrings) is a no-op: on a session with nothing pending it commits
    and answers 200 with the game as get-by-id answers it, and the view
    and the committed games are the games the session saw. *)
Theorem update_game_without_known_keys {MD : Models}
    (id : Z) (g : Game) (data : pyval) (s : Session) :
  view s !! id = Some g -> dirty s = [] ->
  no_data data = false ->
  Forall (fun field => py_contains data (fst field) = Ok false)
    update_fields ->
  update_game id (Json data) s =
  (mkResponse (to_dict (hydrate s (id, g))) 200,
   mkSession
     (mkStore (publishers (stored s)) (categories (stored s)) (view s))
     (view s) []
     (trace s ++ [EvGet TGame (PyInt id); EvCommit; EvSelect])) /\
  fst (update_game id (Json data) s) = fst (get_game id s).
Proof.
  intros Hid Hclean Hdata Hkeys.
  assert (Hupd : update_game id (Json data) s =
            (mkResponse (to_dict (hydrate s (id, g))) 200,
             mkSession
               (mkStore (publishers (stored s)) (categories (stored s))
                  (view s))
               (view s) []
               (trace s ++ [EvGet TGame (PyInt id); EvCommit; EvSelect]))).
  { unfold update_fields in Hkeys.
    repeat match goal with
           | H : Forall _ (_ :: _) |- _ =>
               apply Forall_cons in H as [? H]
           end.
    cbn [fst] in *.
    unfold update_game, try_except_ValueError_Exception, bind, try_get_json,
      return_if, ret, return_, update_field, update_reference, query_get,
      lift.
    rewrite (find_row_found _ _ _ Hid). cbv beta iota zeta delta [is_absent].
    rewrite Hdata. cbv beta iota zeta.
    repeat match goal with
           | H : py_contains data ?k = Ok false |- _ =>
               rewrite H; clear H
           end.
    cbv beta iota zeta delta [bind ret lift return_].
    unfold session_commit, first_by_id. cbv beta iota zeta.
    cbn [dirty log].
    rewrite Hclean. cbn [forallb]. rewrite filter_by_id_rows.
    cbn [view log]. rewrite Hid. cbn [head]. unfold log.
    cbn [stored view dirty trace]. rewrite <- !app_assoc. reflexivity. }
  split; [exact Hupd|].
  rewrite Hupd, (get_game_present id g s Hid). reflexivity.
Qed.

(** [PUT /api/games/1] with the body [{"name": "x"}] in the example. *)
Lemma update_game_without_known_keys_witness :
  update_game (MD := demo_models) 1
    (Json (PyDict {[ lit "name" := PyStr (lit "x") ]})) demo_session =
  (mkResponse (to_dict (hydrate demo_session (1, demo_game))) 200,
   mkSession
     (mkStore (publishers (stored demo_session))
        (categories (stored demo_session)) (view demo_session))
     (view demo_session) []
     (trace demo_session ++ [EvGet TGame (PyInt 1); EvCommit; EvSelect])) /\
  fst (update_game (MD := demo_models) 1
         (Json (PyDict {[ lit "name" := PyStr (lit "x") ]})) demo_session)
  = fst (get_game 1 demo_session).
Proof.
  apply (update_game_without_known_keys (MD := demo_models) 1 demo_game
           (PyDict {[ lit "name" := PyStr (lit "x") ]}) demo_session).
  - reflexivity.
  - reflexivity.
  - reflexivity.
  - repeat constructor.
Defined.

(** X15. An update that changes the description only, on a session with
    nothing pending, when the table refuses the changed row at commit: the
    answer is 500 "Internal server error", which says nothing of the cause;
    the session is rolled back, so it sees the committed game again, the
    committed tables are unchanged and nothing is pending. *)
Theorem update_game_commit_refused {MD : Models}
    (id : Z) (g : Game) (d : gmap pystr pyval) (v v' : pyval) (s : Session) :
  view s !! id = Some g -> dirty s = [] ->
  d !! lit "title" = None ->
  d !! lit "description" = Some v -> Game_validates GDescription v = Ok v' ->
  d !! lit "star_rating" = None ->
  d !! lit "publisher_id" = None -> d !! lit "category_id" = None ->
  Game_storable (Game_store g GDescription v') = false ->
  update_game id (Json (PyDict d)) s =
  (jsonify_error (lit "Internal server error") 500,
   mkSession (stored s) (games (stored s)) []
     (trace s ++ [EvGet TGame (PyInt id); EvCommit; EvRollback])).
Proof.
  intros Hid Hclean Ht Hd Hval Hs Hp Hc Hstor.
  assert (Hne : d <> ∅) by (eapply present_nonempty; eassumption).
  run. rewrite (find_row_found _ _ _ Hid).
  rewrite no_data_dict, bool_decide_eq_false_2 by assumption.
  rewrite Ht, Hd, Hval, Hs, Hp, Hc.
  unfold session_commit, writable. cbn [dirty log view]. rewrite Hclean.
  cbn [forallb]. rewrite lookup_alter_eq, Hid. cbn [fmap option_fmap
                                                     option_map].
  rewrite Hstor. cbn [andb]. unfold session_rollback, log.
  cbn [stored view dirty trace]. rewrite <- !app_assoc. reflexivity.
Qed.

(** [PUT /api/games/1] with the body [{"description": null}] where the
    table wants a description. *)
Lemma update_game_commit_refused_witness :
  update_game (MD := strict_models) 1
    (Json (PyDict {[ lit "description" := PyNone ]})) strict_session =
  (jsonify_error (lit "Internal server error") 500,
   mkSession (stored strict_session) (games (stored strict_session)) []
     (trace strict_session ++
      [EvGet TGame (PyInt 1); EvCommit; EvRollback])).
Proof.
  apply (update_game_commit_refused (MD := strict_models) 1 demo_game
           {[ lit "description" := PyNone ]} PyNone PyNone strict_session);
    reflexivity.
Defined.

(** [PUT /api/games/1] with the body [{"description": null,
    "publisher_id": 999}] where the table wants a description: the lookup
    of the publisher flushes the assignment first, which the table refuses;
    the answer is 500 after a rollback, not 404 "Publisher not found", and
    the publisher was not looked up. *)
Example update_game_flush_refused :
  update_game (MD := strict_models) 1
    (Json (PyDict (list_to_map
                     [ (lit "description", PyNone);
                       (lit "publisher_id", PyInt 999) ]))) strict_session =
  (jsonify_error (lit "Internal server error") 500,
   mkSession strict_db (games strict_db) []
     [EvGet TGame (PyInt 1); EvRollback]).
Proof. reflexivity. Qed.

(** What an update answered 200 committed. *)
Lemma update_game_success_row {MD : Models}
    (id : Z) (d : gmap pystr pyval) (s : Session) :
  status (fst (update_game id (Json (PyDict d)) s)) = 200 ->
  exists g g',
    view s !! id = Some g /\
    games (stored (snd (update_game id (Json (PyDict d)) s))) !! id
      = Some g' /\
    (forall k, k <> id ->
       games (stored (snd (update_game id (Json (PyDict d)) s))) !! k
       = view s !! k) /\
    Forall (fun field =>
              match d !! fst field with
              | None => Game_load g' (snd field) = Game_load g (snd field)
              | Some v =>
                  Game_validates (snd field) v
                  = Ok (Game_load g' (snd field))
              end) update_fields /\
    view (snd (update_game id (Json (PyDict d)) s))
      = games (stored (snd (update_game id (Json (PyDict d)) s))) /\
    body (fst (update_game id (Json (PyDict d)) s))
      = to_dict (hydrate s (id, g')) /\
    publishers (stored (snd (update_game id (Json (PyDict d)) s)))
      = publishers (stored s) /\
    categories (stored (snd (update_game id (Json (PyDict d)) s)))
      = categories (stored s).
Proof.
  destruct (view s !! id) as [g|] eqn:Hid.
  2:{ rewrite (update_game_absent id _ s Hid).
      destruct (int64 id); discriminate. }
  destruct (update_game id (Json (PyDict d)) s) as [r s'] eqn:Hupd.
  cbn [fst snd]. intros Hst. exists g.
  revert Hupd. run. rewrite (find_row_found _ _ _ Hid), no_data_dict.
  destruct (decide (d = ∅)) as [-> | Hne].
  { intros [= <- <-]. discriminate. }
  rewrite bool_decide_eq_false_2 by assumption.
  repeat
    (cbv beta iota zeta; cbn [stored view dirty trace log];
     match goal with
     | |- context [match d !! ?k with _ => _ end] =>
         destruct (d !! k) eqn:?
     | |- context [match Game_validates ?a ?v with _ => _ end] =>
         destruct (Game_validates a v) eqn:?
     | |- context [match find_row ?m ?k with _ => _ end] =>
         destruct (find_row m k) as [[?|]|?] eqn:?
     | |- context [if forallb ?f ?l then _ else _] =>
         destruct (forallb f l)
     end);
    cbv beta iota zeta;
    try (intros [= <- <-]; cbn in Hst; discriminate Hst);
    try (match goal with
         | |- context [match ?e with ValueError _ => _ | _ => _ end] =>
             destruct e
         end; intros [= <- <-]; cbn in Hst; discriminate Hst).
  all: unfold session_commit; cbv beta zeta.
  all: match goal with
    | |- context [forallb ?f ?l] => destruct (forallb f l)
    end;
    try (intros [= <- <-]; cbn in Hst; discriminate Hst).
  all: rewrite filter_by_id_rows; cbn [view log].
  all: rewrite ?lookup_alter_eq, Hid.
  all: cbn [fmap option_fmap option_map head].
  all: intros [= <- <-].
  all: (eexists; split; [reflexivity|]).
  all: cbn [stored games view body log].
  all: (split; [rewrite ?lookup_alter_eq, Hid; reflexivity|]).
  all: (split; [intros k Hk; rewrite ?lookup_alter_ne by congruence;
             reflexivity|]).
  all: (split; [|repeat split; reflexivity]).
  all: unfold update_fields.
  all: repeat (apply Forall_cons; split;
               [cbn [fst snd];
                match goal with
                | H : ?m !! ?k = _ |- context [?m !! ?k] => rewrite H
                end; cbn; first [reflexivity | assumption]|]).
  all: constructor.
Qed.

(** X16. Partial update. When an update with an object payload is
    answered 200, the game existed, and the committed row of that id has,
    for each of [title], [description], [star_rating], [publisher_id],
    [category_id]: the value it had when the key is not in the payload,
    and what the hook of the attribute made of the payload's value when it
    is. No other row changed, the session sees what was committed, and the
    body is the game's row of the composed query. *)
Theorem update_game_applies_present_fields {MD : Models}
    (id : Z) (d : gmap pystr pyval) (s : Session) :
  status (fst (update_game id (Json (PyDict d)) s)) = 200 ->
  exists g g',
    view s !! id = Some g /\
    games (stored (snd (update_game id (Json (PyDict d)) s))) !! id
      = Some g' /\
    (forall k, k <> id ->
       games (stored (snd (update_game id (Json (PyDict d)) s))) !! k
       = view s !! k) /\
    Forall (fun field =>
              match d !! fst field with
              | None => Game_load g' (snd field) = Game_load g (snd field)
              | Some v =>
                  Game_validates (snd field) v
                  = Ok (Game_load g' (snd field))
              end) update_fields /\
    view (snd (update_game id (Json (PyDict d)) s))
      = games (stored (snd (update_game id (Json (PyDict d)) s))) /\
    body (fst (update_game id (Json (PyDict d)) s))
      = to_dict (hydrate s (id, g')).
Proof.
  intros Hst.
  destruct (update_game_success_row id d s Hst)
    as (g & g' & Hg & Hg' & Hother & Hfields & Hview & Hbody & _).
  exists g, g'. repeat (split; [assumption|]). assumption.
Qed.

(** Renaming game 1 of the example: the title is the new one and the
    description is the old one. *)
Lemma update_game_applies_present_fields_witness :
  exists g g',
    view demo_session !! 1 = Some g /\
    games (stored (snd (update_game (MD := demo_models) 1
                          (Json (PyDict {[ lit "title" :=
                                             PyStr (lit "Renamed") ]}))
                          demo_session))) !! 1 = Some g' /\
    (forall k, k <> 1 ->
       games (stored (snd (update_game (MD := demo_models) 1
                             (Json (PyDict {[ lit "title" :=
                                                PyStr (lit "Renamed") ]}))
                             demo_session))) !! k
       = view demo_session !! k) /\
    Forall (fun field =>
              match ({[ lit "title" := PyStr (lit "Renamed") ]}
                       : gmap pystr pyval) !! fst field with
              | None => Game_load g' (snd field) = Game_load g (snd field)
              | Some v =>
                  Game_validates (Models := demo_models) (snd field) v
                  = Ok (Game_load g' (snd field))
              end) update_fields /\
    view (snd (update_game (MD := demo_models) 1
                 (Json (PyDict {[ lit "title" := PyStr (lit "Renamed") ]}))
                 demo_session))
      = games (stored (snd (update_game (MD := demo_models) 1
                              (Json (PyDict {[ lit "title" :=
                                                 PyStr (lit "Renamed") ]}))
                              demo_session))) /\
    body (fst (update_game (MD := demo_models) 1
                 (Json (PyDict {[ lit "title" := PyStr (lit "Renamed") ]}))
                 demo_session))
      = to_dict (hydrate demo_session (1, g')).
Proof.
  apply (update_game_applies_present_fields (MD := demo_models) 1
           {[ lit "title" := PyStr (lit "Renamed") ]} demo_session).
  reflexivity.
Defined.


(* ===================================================================== *)
(** * Payloads that are not objects *)
(* ===================================================================== *)

(** X17. Create on a JSON payload that is not an object never reaches the
    database. [null] is answered 400 "No data provided"; a list or a string
    that does not contain ["title"] is answered 400 "Missing required
    field: title", the session untouched; a number or a boolean, and a list
    or a string that does contain ["title"], make the handler raise, which
    is answered 500 "Internal server error" after a rollback. *)
Theorem create_game_non_object_payload {MD : Models}
    (data : pyval) (s : Session) :
  (forall d, data <> PyDict d) ->
  (data = PyNone ->
   create_game (Json data) s =
   (jsonify_error (lit "No data provided") 400, s)) /\
  (data <> PyNone -> py_contains data (lit "title") = Ok false ->
   create_game (Json data) s =
   (jsonify_error (lit "Missing required field: title") 400, s)) /\
  (data <> PyNone -> py_contains data (lit "title") <> Ok false ->
   create_game (Json data) s =
   (jsonify_error (lit "Internal server error") 500, session_rollback s)) /\
  (status (fst (create_game (Json data) s)) = 400 \/
   status (fst (create_game (Json data) s)) = 500) /\
  (trace (snd (create_game (Json data) s)) = trace s \/
   trace (snd (create_game (Json data) s)) = trace s ++ [EvRollback]).
Proof.
  intros Hobj.
  destruct data as [|b|n|x|str|l|d];
    try (exfalso; apply (Hobj d); reflexivity).
  - repeat split; try (left; reflexivity); try congruence; reflexivity.
  - repeat split; try (right; reflexivity); try discriminate; reflexivity.
  - repeat split; try (right; reflexivity); try discriminate; reflexivity.
  - repeat split; try (right; reflexivity); try discriminate; reflexivity.
  - assert (Hcase :
        create_game (Json (PyStr str)) s =
        if is_substr (lit "title") str
        then (jsonify_error (lit "Internal server error") 500,
              session_rollback s)
        else (jsonify_error (lit "Missing required field: title") 400, s)).
    { run. cbn [no_data is_none orb required_fields check_required].
      run. destruct (is_substr (lit "title") str); reflexivity. }
    rewrite Hcase. cbn [py_contains].
    destruct (is_substr (lit "title") str); cbn [fst snd status trace
        jsonify_error session_rollback];
      repeat split; auto; try discriminate; congruence.
  - assert (Hcase :
        create_game (Json (PyList l)) s =
        if existsb (fun x => match x with
                             | PyStr s0 => pystr_eqb s0 (lit "title")
                             | _ => false
                             end) l
        then (jsonify_error (lit "Internal server error") 500,
              session_rollback s)
        else (jsonify_error (lit "Missing required field: title") 400, s)).
    { run. cbn [no_data is_none orb required_fields check_required].
      run. destruct (existsb _ l); reflexivity. }
    rewrite Hcase. cbn [py_contains].
    destruct (existsb _ l); cbn [fst snd status trace
        jsonify_error session_rollback];
      repeat split; auto; try discriminate; congruence.
Qed.

(** The payloads [17], ["subtitle"] and [["x"]] on the example. *)
Lemma create_game_non_object_payload_witness :
  create_game (MD := demo_models) (Json (PyInt 17)) demo_session =
  (jsonify_error (lit "Internal server error") 500,
   session_rollback demo_session) /\
  create_game (MD := demo_models) (Json (PyStr (lit "subtitle")))
    demo_session =
  (jsonify_error (lit "Internal server error") 500,
   session_rollback demo_session) /\
  create_game (MD := demo_models) (Json (PyList [PyStr (lit "x")]))
    demo_session =
  (jsonify_error (lit "Missing required field: title") 400, demo_session).
Proof.
  split; [|split].
  - apply (proj1 (proj2 (proj2 (create_game_non_object_payload
                                  (MD := demo_models) (PyInt 17)
                                  demo_session
                                  ltac:(intros d; discriminate))))).
    + discriminate.
    + discriminate.
  - apply (proj1 (proj2 (proj2 (create_game_non_object_payload
                                  (MD := demo_models)
                                  (PyStr (lit "subtitle")) demo_session
                                  ltac:(intros d; discriminate))))).
    + discriminate.
    + vm_compute. discriminate.
  - apply (proj1 (proj2 (create_game_non_object_payload
                           (MD := demo_models)
                           (PyList [PyStr (lit "x")]) demo_session
                           ltac:(intros d; discriminate)))).
    + discriminate.
    + reflexivity.
Defined.

(** X18. Update of an existing game with a payload that is a number or a
    boolean: the test for the first key raises, which is answered 500
    "Internal server error" after a rollback; nothing was assigned. *)
Theorem update_game_scalar_payload {MD : Models}
    (id : Z) (g : Game) (data : pyval) (s : Session) :
  view s !! id = Some g ->
  (exists b, data = PyBool b) \/ (exists n, data = PyInt n) \/
  (exists x, data = PyFloat x) ->
  update_game id (Json data) s =
  (jsonify_error (lit "Internal server error") 500,
   session_rollback (log (EvGet TGame (PyInt id)) s)).
Proof.
  intros Hid [[b ->] | [[n ->] | [x ->]]];
    run; rewrite (find_row_found _ _ _ Hid); reflexivity.
Qed.

(** [PUT /api/games/1] with the body [17] in the example. *)
Lemma update_game_scalar_payload_witness :
  update_game (MD := demo_models) 1 (Json (PyInt 17)) demo_session =
  (jsonify_error (lit "Internal server error") 500,
   session_rollback (log (EvGet TGame (PyInt 1)) demo_session)).
Proof.
  apply (update_game_scalar_payload (MD := demo_models) 1 demo_game
           (PyInt 17) demo_session).
  - reflexivity.
  - right. left. exists 17. reflexivity.
Defined.

(* ===================================================================== *)
(** * Further properties of the composed query *)
(* ===================================================================== *)

(** X19. The rows of the composed query are sound: each is a game the
    session sees, under its own key and only once; the publisher joined to
    it, when there is one, is the row of the publishers table that the
    game's [publisher_id] designates, and likewise for the category. *)
Theorem base_query_rows_are_sound {MD : Models} (s : Session) :
  NoDup (List.map row_id (get_games_base_query s)) /\
  (forall row,
     In row (get_games_base_query s) ->
     view s !! row_id row = Some (row_game row) /\
     (forall k p, snd (fst row) = Some (k, p) ->
        pk_of (game_publisher_id (row_game row)) = PkRow k /\
        publishers (stored s) !! k = Some p) /\
     (forall k c, snd row = Some (k, c) ->
        pk_of (game_category_id (row_game row)) = PkRow k /\
        categories (stored s) !! k = Some c)).
Proof.
  rewrite get_games_base_query_rows. split.
  - rewrite List.map_map.
    apply (NoDup_fst_map_to_list (view s)).
  - intros row Hin. apply in_map_iff in Hin as ([k g] & <- & Hin).
    apply list_elem_of_In, elem_of_map_to_list in Hin.
    unfold hydrate, row_id, row_game, related. cbn [fst snd].
    split; [exact Hin|]. split.
    + intros k' p.
      destruct (pk_of (game_publisher_id g)) as [kp| |]; try discriminate.
      destruct (publishers (stored s) !! kp) as [p'|] eqn:Hp;
        [|discriminate].
      intros [= <- <-]. auto.
    + intros k' c.
      destruct (pk_of (game_category_id g)) as [kc| |]; try discriminate.
      destruct (categories (stored s) !! kc) as [c'|] eqn:Hc;
        [|discriminate].
      intros [= <- <-]. auto.
Qed.

(** The row of game 1 of the example carries publisher 1. *)
Lemma base_query_rows_are_sound_witness :
  view demo_session !! row_id (hydrate demo_session (1, demo_game))
  = Some (row_game (hydrate demo_session (1, demo_game))) /\
  (forall k p,
     snd (fst (hydrate demo_session (1, demo_game))) = Some (k, p) ->
     pk_of (MD := demo_models) (game_publisher_id
              (row_game (hydrate demo_session (1, demo_game)))) = PkRow k /\
     publishers (stored demo_session) !! k = Some p) /\
  (forall k c,
     snd (hydrate demo_session (1, demo_game)) = Some (k, c) ->
     pk_of (MD := demo_models) (game_category_id
              (row_game (hydrate demo_session (1, demo_game)))) = PkRow k /\
     categories (stored demo_session) !! k = Some c).
Proof.
  apply (proj2 (base_query_rows_are_sound (MD := demo_models)
                  demo_session)).
  left. reflexivity.
Defined.

(* ===================================================================== *)
(** * How the handlers compose *)
(* ===================================================================== *)

(** X20. Create then delete. After a create that succeeds on a session
    with nothing pending, under a key the table did not have, a delete of
    the new id is answered 200 and the committed games are again the games
    there were before the create; a get of the new id is then answered 404
    "Game not found" (the new id being a key of 64 bits, as the keys a
    table assigns are; for another, the query raises and the answer is the
    framework's 500). *)
Theorem create_then_delete {MD : Models}
    (d : gmap pystr pyval) (t ds pid cid : pyval)
    (p : Publisher) (c : Category) (g : Game) (s : Session) :
  d !! lit "title" = Some t -> d !! lit "description" = Some ds ->
  d !! lit "publisher_id" = Some pid -> d !! lit "category_id" = Some cid ->
  Forall (fun field => missing d field = false) required_fields ->
  find_row (publishers (stored s)) pid = Ok (Some p) ->
  find_row (categories (stored s)) cid = Ok (Some c) ->
  Game_init t ds pid cid (default PyNone (d !! lit "star_rating")) = Ok g ->
  Game_storable g = true ->
  dirty s = [] ->
  view s !! next_game_id (view s) = None ->
  let s1 := snd (create_game (Json (PyDict d)) s) in
  fst (delete_game (next_game_id (view s)) s1) =
    jsonify_message (lit "Game deleted successfully") 200 /\
  games (stored (snd (delete_game (next_game_id (view s)) s1))) = view s /\
  fst (get_game (next_game_id (view s))
         (snd (delete_game (next_game_id (view s)) s1))) =
    (if int64 (next_game_id (view s))
     then jsonify_error (lit "Game not found") 404
     else mkResponse unhandled_body 500).
Proof.
  intros Ht Hds Hpid Hcid Hall Hpub Hcat Hinit Hstor Hclean Hfresh s1.
  destruct (create_game_success d t ds pid cid p c g s
              Ht Hds Hpid Hcid Hall Hpub Hcat Hinit Hstor Hclean)
    as (s' & Hcreate & Hgames & _ & _ & Hview & Hdirty & _).
  subst s1. rewrite Hcreate. cbn [snd].
  assert (Hseen : view s' !! next_game_id (view s) = Some g).
  { rewrite Hview, Hgames. apply lookup_insert_eq. }
  rewrite (delete_game_clean_session _ g s' Hseen Hdirty).
  cbn [fst snd stored games].
  split; [reflexivity|]. split.
  - rewrite Hview, Hgames. rewrite delete_insert_eq.
    apply delete_id, Hfresh.
  - rewrite get_game_absent; [reflexivity|].
    cbn [view]. apply lookup_delete_eq.
Qed.

(** Creating a game in the example and deleting it again. *)
Lemma create_then_delete_witness :
  fst (delete_game (MD := demo_models) demo_new_id
         (snd (create_game (Json (PyDict (demo_full_payload 1 1)))
                 demo_session))) =
    jsonify_message (lit "Game deleted successfully") 200 /\
  games (stored (snd (delete_game (MD := demo_models) demo_new_id
                        (snd (create_game
                                (Json (PyDict (demo_full_payload 1 1)))
                                demo_session))))) = view demo_session /\
  fst (get_game (MD := demo_models) demo_new_id
         (snd (delete_game demo_new_id
                 (snd (create_game (Json (PyDict (demo_full_payload 1 1)))
                         demo_session))))) =
    (if int64 (next_game_id (Models := demo_models) (view demo_session))
     then jsonify_error (lit "Game not found") 404
     else mkResponse (unhandled_body (Models := demo_models)) 500).
Proof.
  apply (create_then_delete (MD := demo_models)
           (demo_full_payload 1 1)
           (PyStr (lit "T")) (PyStr (lit "D")) (PyInt 1) (PyInt 1)
           (lit "Contoso") demo_category
           (mkGame (PyStr (lit "T")) (PyStr (lit "D")) PyNone
              (PyInt 1) (PyInt 1))
           demo_session);
    first [reflexivity | repeat constructor].
Defined.

(** X21. Delete twice. After a delete that succeeds on a session with
    nothing pending, a second delete of the same id is answered 404 "Game
    not found" (the id being a key of 64 bits, as the keys of a table are;
    for another, the lookup raises and the answer is 500 "Internal server
    error") and the committed tables stay as the first delete left
    them. *)
Theorem delete_game_twice {MD : Models} (id : Z) (g : Game) (s : Session) :
  view s !! id = Some g -> dirty s = [] ->
  let s1 := snd (delete_game id s) in
  fst (delete_game id s1) =
    (if int64 id then jsonify_error (lit "Game not found") 404
     else jsonify_error (lit "Internal server error") 500) /\
  stored (snd (delete_game id s1)) = stored s1 /\
  games (stored s1) = delete id (view s).
Proof.
  intros Hid Hclean s1. subst s1.
  rewrite (delete_game_clean_session id g s Hid Hclean). cbn [snd].
  rewrite delete_game_absent by (cbn [view]; apply lookup_delete_eq).
  destruct (int64 id); repeat split.
Qed.

(** Deleting game 1 of the example twice. *)
Lemma delete_game_twice_witness :
  fst (delete_game (MD := demo_models) 1
         (snd (delete_game 1 demo_session)))
  = (if int64 1 then jsonify_error (lit "Game not found") 404
     else jsonify_error (lit "Internal server error") 500) /\
  stored (snd (delete_game (MD := demo_models) 1
                 (snd (delete_game 1 demo_session))))
  = stored (snd (delete_game (MD := demo_models) 1 demo_session)) /\
  games (stored (snd (delete_game (MD := demo_models) 1 demo_session)))
  = delete 1 (view demo_session).
Proof.
  apply (delete_game_twice (MD := demo_models) 1 demo_game demo_session).
  - reflexivity.
  - reflexivity.
Defined.

Lemma Game_load_ext (g g' : Game) :
  (forall a, Game_load g a = Game_load g' a) -> g = g'.
Proof.
  intros Hall. destruct g, g'.
  pose proof (Hall GTitle). pose proof (Hall GDescription).
  pose proof (Hall GStarRating). pose proof (Hall GPublisherId).
  pose proof (Hall GCategoryId). cbn in *. congruence.
Qed.

(** X22. Update twice. When an update with an object payload is answered
    200 and the same update, repeated on the resulting session, is answered
    200 as well, the repeat changes nothing: the committed games and the
    body are those of the first answer. *)
Theorem update_game_twice {MD : Models}
    (id : Z) (d : gmap pystr pyval) (s : Session) :
  let s1 := snd (update_game id (Json (PyDict d)) s) in
  status (fst (update_game id (Json (PyDict d)) s)) = 200 ->
  status (fst (update_game id (Json (PyDict d)) s1)) = 200 ->
  games (stored (snd (update_game id (Json (PyDict d)) s1)))
    = games (stored s1) /\
  body (fst (update_game id (Json (PyDict d)) s1))
    = body (fst (update_game id (Json (PyDict d)) s)).
Proof.
  intros s1 Hst1 Hst2.
  destruct (update_game_success_row id d s Hst1)
    as (g & g1 & Hg & Hg1 & Hother1 & Hfields1 & Hview1 & Hbody1 & Hp1 & Hc1).
  destruct (update_game_success_row id d s1 Hst2)
    as (g1' & g2 & Hg1' & Hg2 & Hother2 & Hfields2 & Hview2 & Hbody2 & _).
  fold s1 in Hg1, Hother1, Hview1, Hp1, Hc1.
  assert (Heq1 : g1' = g1) by (rewrite Hview1 in Hg1'; congruence).
  subst g1'.
  assert (Heq2 : g2 = g1).
  { apply Game_load_ext. intros a.
    unfold update_fields in Hfields1, Hfields2.
    repeat match goal with
           | H : Forall _ (_ :: _) |- _ => apply Forall_cons in H as [? H]
           end.
    cbn [fst snd] in *.
    destruct a;
      match goal with
      | H1 : match d !! ?k with _ => _ end,
        H2 : match d !! ?k with _ => _ end
        |- Game_load _ ?a = _ =>
          lazymatch type of H1 with
          | context [Game_load g2 a] =>
              lazymatch type of H2 with
              | context [Game_load g a] =>
                  destruct (d !! k); [congruence | exact H1]
              end
          end
      end. }
  subst g2. split.
  - apply map_eq. intros k. destruct (decide (k = id)) as [-> | Hk].
    + congruence.
    + rewrite (Hother2 k Hk), Hview1. reflexivity.
  - rewrite Hbody2, Hbody1. unfold hydrate. rewrite Hp1, Hc1. reflexivity.
Qed.

(** Renaming game 1 of the example twice. *)
Lemma update_game_twice_witness :
  games (stored (snd (update_game (MD := demo_models) 1
                        (Json (PyDict {[ lit "title" :=
                                           PyStr (lit "Renamed") ]}))
                        (snd (update_game 1
                                (Json (PyDict {[ lit "title" :=
                                                   PyStr (lit "Renamed") ]}))
                                demo_session)))))
    = games (stored (snd (update_game (MD := demo_models) 1
                            (Json (PyDict {[ lit "title" :=
                                               PyStr (lit "Renamed") ]}))
                            demo_session))) /\
  body (fst (update_game (MD := demo_models) 1
               (Json (PyDict {[ lit "title" := PyStr (lit "Renamed") ]}))
               (snd (update_game 1
                       (Json (PyDict {[ lit "title" :=
                                          PyStr (lit "Renamed") ]}))
                       demo_session))))
    = body (fst (update_game (MD := demo_models) 1
                   (Json (PyDict {[ lit "title" :=
                                      PyStr (lit "Renamed") ]}))
                   demo_session)).
Proof.
  apply (update_game_twice (MD := demo_models) 1
           {[ lit "title" := PyStr (lit "Renamed") ]} demo_session).
  - reflexivity.
  - reflexivity.
Defined.
